(** * galaxy_ng: the collection-version move endpoint

    A shallow embedding of [CollectionVersionMoveViewSet] from
    [galaxy_ng/app/api/v3/viewsets/collection.py]: the request handler
    [move_content] and its two helpers [_add_content] and [_remove_content].

    The handler is written in a small state-and-exception monad over a
    [World] made of the database tables it reads, the task queue it submits
    to, and a ghost trace of the collaborator calls it makes. *)

From Stdlib Require Import DecimalString.
From stdpp Require Import gmap strings list.

(** ** Strings *)

(** Python's [sep.join(parts)]. *)
Fixpoint join (sep : string) (parts : list string) : string :=
  match parts with
  | [] => ""
  | [p] => p
  | p :: rest => p +:+ sep +:+ join sep rest
  end.

(** Python's [sub in s] on strings. *)
Fixpoint str_contains (sub s : string) : bool :=
  String.prefix sub s ||
  match s with
  | EmptyString => false
  | String _ s' => str_contains sub s'
  end.

(** Python's [s.endswith(suffix)]. *)
Definition str_endswith (suffix s : string) : bool :=
  String.prefix (String.rev suffix) (String.rev s).

(** [c in s] for a character [c]. *)
Fixpoint str_has_char (c : Ascii.ascii) (s : string) : bool :=
  match s with
  | EmptyString => false
  | String a s' => Ascii.eqb a c || str_has_char c s'
  end.

(** The NUL character, and whether a string holds one. *)
Definition nul : Ascii.ascii := Ascii.ascii_of_nat 0.

Definition has_nul (s : string) : bool := str_has_char nul s.

(** ** Exceptions

    The three exception classes the handler names, and the two built-in
    exceptions that its lookups can end in.  [ObjectDoesNotExist] comes from
    [django.core.exceptions]; [APIException] and its subclass [NotFound]
    come from [rest_framework.exceptions].  [NoneTypeAttributeError] is the
    [AttributeError] of an attribute read on [None], and [NulValueError] the
    [ValueError] with which the database driver refuses a string parameter
    that holds a NUL character. *)
Inductive exn : Type :=
| ObjectDoesNotExist
| NotFound (detail : string)
| APIException (detail : string)
| NoneTypeAttributeError
| NulValueError.

Global Instance exn_eq_dec : EqDecision exn.
Proof. solve_decision. Defined.

Definition detail_of (e : exn) : string :=
  match e with
  | NotFound d | APIException d => d
  | ObjectDoesNotExist | NoneTypeAttributeError | NulValueError => ""
  end.

(** The [status_code] class attribute that rest_framework's exception
    handler copies into the HTTP response: [NotFound.status_code] is
    [HTTP_404_NOT_FOUND], and [APIException.status_code], which the handler's
    [raise APIException(...)] does not override, is
    [HTTP_500_INTERNAL_SERVER_ERROR].  An exception that is not an
    [APIException] is answered by Django with a 500 as well. *)
Definition status_code (e : exn) : nat :=
  match e with
  | NotFound _ => 404
  | APIException _ => 500
  | ObjectDoesNotExist | NoneTypeAttributeError | NulValueError => 500
  end.

Definition is_NotFound (e : exn) : bool :=
  match e with NotFound _ => true | _ => false end.

Definition is_client_error (code : nat) : bool :=
  (400 <=? code) && (code <=? 499).

(** ** Data model

    The model classes [CollectionVersion], [AnsibleDistribution] and the
    repository classes are imported from pulp_ansible and pulpcore.  Each
    table is a finite map keyed by the column (or columns) that identifies
    its rows, and an object read from a table carries its key together with
    the row. *)

(** Primary keys. *)
Definition Pk := nat.

(** Modelled from the spec: a content unit, "identified by a natural key
    (namespace, name, version)"; [cv_pk] is the [.pk] the handler passes to
    the tasks. *)
Record CollectionVersion := {
  cv_pk : Pk;
  cv_namespace : string;
  cv_name : string;
  cv_version : string;
}.

(** Modelled from the spec: a repository version, an immutable snapshot
    whose [content] "is a set of ContentUnit identities". *)
Record RepositoryVersion := {
  rv_number : nat;
  content : gset Pk;
}.

(** Modelled from the spec: a repository, with its "monotonically
    increasing sequence of RepositoryVersion snapshots". *)
Record Repository := {
  repo_pk : Pk;
  (* the versions appended after version 0, oldest first *)
  repo_versions : list RepositoryVersion;
}.

(** A distribution, with its unique path [base_path]; [repository_id] is
    the foreign key behind the [.repository] attribute the handler reads.
    The key is nullable: a distribution need not have a repository. *)
Record AnsibleDistribution := {
  base_path : string;
  repository_id : option Pk;
}.

(** The three tables the handler queries. *)
Record Database := {
  collection_versions : gmap (string * string * string) Pk;
  distributions : gmap string (option Pk);
  repositories : gmap Pk (list RepositoryVersion);
}.

(** Every repository starts with an empty version 0. *)
Definition version_zero : RepositoryVersion :=
  {| rv_number := 0; content := ∅ |}.

(** Modelled from the spec: [Repository.latest_version()], the "current
    version = latest in the sequence". *)
Definition latest_version (repo : Repository) : RepositoryVersion :=
  List.last (repo_versions repo) version_zero.

(** ** Task queue *)

Inductive TaskFunc : Type :=
| add_content_to_repository
| remove_content_from_repository.

Global Instance TaskFunc_eq_dec : EqDecision TaskFunc.
Proof. solve_decision. Defined.

(** Modelled from the spec: the lifecycle of a queued job, "pending →
    running → succeeded/failed", under pulpcore's names for the states. *)
Inductive TaskState : Type := Waiting | Running | Completed | Failed.

(** A task as the queue records it. *)
Record Task := {
  id : nat;
  task_func : TaskFunc;
  (* the reservation keys: the identities of the locked resources *)
  reserved_resources : list Pk;
  task_args : Pk * Pk;
  state : TaskState;
}.

(** ** World *)

(** Ghost trace: one entry per call the handler makes to a collaborator. *)
Inductive Call : Type :=
| CollectionVersion_get (namespace name version : string)
| AnsibleDistribution_get (path : string)
| Repository_latest_version (repo : Pk)
| CollectionVersion_filter (pks : gset Pk)
| Enqueue (func : TaskFunc) (locks : list Pk) (args : Pk * Pk).

Definition is_Enqueue (c : Call) : bool :=
  match c with Enqueue _ _ _ => true | _ => false end.

Definition is_repository_lookup (c : Call) : bool :=
  match c with
  | AnsibleDistribution_get _ | Repository_latest_version _ => true
  | _ => false
  end.

Record World := {
  db : Database;
  tasks : list Task;
  trace : list Call;
}.

Definition log (c : Call) (w : World) : World :=
  {| db := db w; tasks := tasks w; trace := trace w ++ [c] |}.

(** ** The handler monad: state passing with Python exceptions *)

Inductive outcome (A : Type) : Type :=
| Return (a : A)
| Raise (e : exn).
Arguments Return {A} a.
Arguments Raise {A} e.

Definition M (A : Type) : Type := World → outcome A * World.

Definition ret {A} (a : A) : M A := λ w, (Return a, w).

Definition bind {A B} (m : M A) (k : A → M B) : M B :=
  λ w, match m w with
       | (Return a, w') => k a w'
       | (Raise e, w') => (Raise e, w')
       end.

Definition raise {A} (e : exn) : M A := λ w, (Raise e, w).

(** [try: body / except ObjectDoesNotExist: handler]. *)
Definition try_except_ObjectDoesNotExist {A} (body handler : M A) : M A :=
  λ w, match body w with
       | (Raise ObjectDoesNotExist, w') => handler w'
       | r => r
       end.

Declare Scope handler_scope.
Delimit Scope handler_scope with handler.
Notation "'let*' x ':=' m 'in' k" := (bind m (λ x, k))
  (at level 10, x pattern, m at level 100, k at level 200) : handler_scope.
Local Open Scope handler_scope.

(** ** The ORM calls of the handler *)

(** [CollectionVersion.objects.get(namespace=.., name=.., version=..)].
    The driver refuses the query with [ValueError] when one of the strings
    holds a NUL character; otherwise the row is found or the model's
    [DoesNotExist] is raised. *)
Definition CollectionVersion_objects_get (namespace name version : string)
  : M CollectionVersion :=
  λ w,
    let w' := log (CollectionVersion_get namespace name version) w in
    if has_nul namespace || has_nul name || has_nul version
    then (Raise NulValueError, w')
    else
    match collection_versions (db w) !! (namespace, name, version) with
    | Some pk =>
        (Return {| cv_pk := pk; cv_namespace := namespace;
                   cv_name := name; cv_version := version |}, w')
    | None => (Raise ObjectDoesNotExist, w')
    end.

(** [AnsibleDistribution.objects.get(base_path=path)], with the same
    refusal of a NUL character. *)
Definition AnsibleDistribution_objects_get (path : string)
  : M AnsibleDistribution :=
  λ w,
    let w' := log (AnsibleDistribution_get path) w in
    if has_nul path then (Raise NulValueError, w')
    else
    match distributions (db w) !! path with
    | Some rid => (Return {| base_path := path; repository_id := rid |}, w')
    | None => (Raise ObjectDoesNotExist, w')
    end.

(** The [.repository] attribute of a distribution: [None] when the foreign
    key is NULL, else the row the key names.  Django raises the related
    model's [DoesNotExist], a subclass of [ObjectDoesNotExist], when the
    key names no row. *)
Definition repository (d : AnsibleDistribution) : M (option Repository) :=
  λ w,
    match repository_id d with
    | None => (Return None, w)
    | Some rid =>
        match repositories (db w) !! rid with
        | Some vs =>
            (Return (Some {| repo_pk := rid; repo_versions := vs |}), w)
        | None => (Raise ObjectDoesNotExist, w)
        end
    end.

(** [repo.latest_version().content], read when the line is executed; on
    [None] the attribute read [repo.latest_version] raises
    [AttributeError] and no call is made. *)
Definition latest_version_content (repo : option Repository)
  : M (gset Pk) :=
  λ w,
    match repo with
    | None => (Raise NoneTypeAttributeError, w)
    | Some repo =>
        (Return (content (latest_version repo)),
         log (Repository_latest_version (repo_pk repo)) w)
    end.

(** The rows [CollectionVersion.objects.filter(pk__in=pks)] yields when the
    queryset is iterated. *)
Definition filter_pk_in (d : Database) (pks : gset Pk)
  : list CollectionVersion :=
  List.filter (λ cv, bool_decide (cv_pk cv ∈ pks))
    ((λ row, {| cv_pk := row.2; cv_namespace := row.1.1.1;
                cv_name := row.1.1.2; cv_version := row.1.2 |})
       <$> map_to_list (collection_versions d)).

Definition CollectionVersion_objects_filter_pk_in (pks : gset Pk)
  : M (list CollectionVersion) :=
  λ w, (Return (filter_pk_in (db w) pks),
        log (CollectionVersion_filter pks) w).

(** [obj in queryset]: iteration with the model's [__eq__], which compares
    primary keys. *)
Definition in_queryset (cv : CollectionVersion) (qs : list CollectionVersion)
  : bool :=
  existsb (λ x, bool_decide (cv_pk x = cv_pk cv)) qs.

(** ** pulpcore's [enqueue_with_reservation] *)

(** Modelled from the spec: "submit(jobName, reservationKeys, args) ->
    JobHandle", which "returns immediately".  The call records a waiting
    task that reserves the identities of the given resources and returns
    it; a worker runs the task later.  Task ids are sequence numbers. *)
Definition enqueue_with_reservation
    (func : TaskFunc) (locks : list Repository) (args : Pk * Pk) : M Task :=
  λ w,
    let t := {| id := length (tasks w); task_func := func;
                reserved_resources := repo_pk <$> locks;
                task_args := args; state := Waiting |} in
    (Return t,
     {| db := db w; tasks := tasks w ++ [t];
        trace := trace w ++ [Enqueue func (repo_pk <$> locks) args] |}).

(** ** CollectionVersionMoveViewSet *)

Record Kwargs := {
  kw_namespace : string;
  kw_name : string;
  kw_version : string;
  kw_source_path : string;
  kw_dest_path : string;
}.

(** [rest_framework.response.Response(data=..., status=...)]; [data] is the
    dict literal in insertion order and [status] the value as passed. *)
Record Response := {
  data : list (string * nat);
  status : string;
}.

(** The status line of the response: Django's [HttpResponse] stores
    [int(status)]. *)
Definition response_status_code (r : Response) : option nat :=
  Nat.of_uint <$> NilEmpty.uint_of_string (status r).

(** The two helpers; on [None] the read of [repo.pk] raises
    [AttributeError] before anything is enqueued. *)
Definition _add_content (collection_version : CollectionVersion)
    (repo : option Repository) : M Task :=
  match repo with
  | None => raise NoneTypeAttributeError
  | Some repo =>
      let locks := [repo] in
      let task_args := (cv_pk collection_version, repo_pk repo) in
      enqueue_with_reservation add_content_to_repository locks task_args
  end.

Definition _remove_content (collection_version : CollectionVersion)
    (repo : option Repository) : M Task :=
  match repo with
  | None => raise NoneTypeAttributeError
  | Some repo =>
      let locks := [repo] in
      let task_args := (cv_pk collection_version, repo_pk repo) in
      enqueue_with_reservation remove_content_from_repository locks task_args
  end.

Definition version_str_of (kwargs : Kwargs) : string :=
  join "-" [kw_namespace kwargs; kw_name kwargs; kw_version kwargs].

Definition move_content (kwargs : Kwargs) : M Response :=
  let version_str := version_str_of kwargs in
  let* collection_version :=
    try_except_ObjectDoesNotExist
      (CollectionVersion_objects_get
         (kw_namespace kwargs) (kw_name kwargs) (kw_version kwargs))
      (raise (NotFound ("Collection " +:+ version_str +:+ " not found"))) in
  let* repos :=
    try_except_ObjectDoesNotExist
      (let* src_dist :=
         AnsibleDistribution_objects_get (kw_source_path kwargs) in
       let* src_repo := repository src_dist in
       let* dest_dist :=
         AnsibleDistribution_objects_get (kw_dest_path kwargs) in
       let* dest_repo := repository dest_dist in
       ret (src_repo, dest_repo))
      (raise (NotFound ("Repo(s) for moving collection " +:+ version_str
                        +:+ " not found"))) in
  let '(src_repo, dest_repo) := repos in
  let* src_content := latest_version_content src_repo in
  let* src_versions := CollectionVersion_objects_filter_pk_in src_content in
  if negb (in_queryset collection_version src_versions)
  then raise (NotFound ("Collection " +:+ version_str
                        +:+ " not found in source repo"))
  else
  let* dest_content := latest_version_content dest_repo in
  let* dest_versions := CollectionVersion_objects_filter_pk_in dest_content in
  if in_queryset collection_version dest_versions
  then raise (APIException ("Collection " +:+ version_str
                            +:+ " already found in destination repo"))
  else
  let* add_task := _add_content collection_version dest_repo in
  let* remove_task := _remove_content collection_version src_repo in
  ret {| data := [("add_task_id", id add_task);
                  ("remove_task_id", id remove_task)];
         status := "202" |}.

(** ** What a request finds in the database

    The lookups of the handler as pure functions of the database: the unit
    a request names, what looking a path up comes to, the repository a path
    resolves to, and the content set of a repository's current version. *)

(** One of the three strings of the unit's key holds a NUL character. *)
Definition key_has_nul (k : Kwargs) : bool :=
  has_nul (kw_namespace k) || has_nul (kw_name k) || has_nul (kw_version k).

(** The unit a request names: a row under its key, the key being one the
    database accepts. *)
Definition find_unit (d : Database) (k : Kwargs) : option CollectionVersion :=
  if key_has_nul k then None
  else
    (λ pk, {| cv_pk := pk; cv_namespace := kw_namespace k;
              cv_name := kw_name k; cv_version := kw_version k |})
      <$> collection_versions d !! (kw_namespace k, kw_name k, kw_version k).

(** What looking a path up comes to: the lookup is refused (NUL), no
    distribution has the path (or its key names no repository row), the
    distribution has no repository (NULL key), or it has one. *)
Inductive path_lookup : Type :=
| LookupRefused
| LookupDoesNotExist
| LookupNone
| LookupRepository (repo : Repository).

Definition lookup_path (d : Database) (path : string) : path_lookup :=
  if has_nul path then LookupRefused
  else
    match distributions d !! path with
    | None => LookupDoesNotExist
    | Some None => LookupNone
    | Some (Some rid) =>
        match repositories d !! rid with
        | None => LookupDoesNotExist
        | Some vs => LookupRepository {| repo_pk := rid; repo_versions := vs |}
        end
    end.

(** The value the lookup leaves in the handler's variable, when it leaves
    one: [None] or a repository. *)
Definition looked_up (l : path_lookup) : option (option Repository) :=
  match l with
  | LookupNone => Some None
  | LookupRepository repo => Some (Some repo)
  | LookupRefused | LookupDoesNotExist => None
  end.

(** The repository a path resolves to. *)
Definition resolve (d : Database) (path : string) : option Repository :=
  match lookup_path d path with
  | LookupRepository repo => Some repo
  | _ => None
  end.

Definition current_content (repo : Repository) : gset Pk :=
  content (latest_version repo).

(** The precondition failures of a request, one constructor per check. *)
Inductive precondition_fails (d : Database) (k : Kwargs) : Prop :=
| unit_does_not_exist :
    find_unit d k = None → precondition_fails d k
| source_path_unresolved :
    resolve d (kw_source_path k) = None → precondition_fails d k
| dest_path_unresolved :
    resolve d (kw_dest_path k) = None → precondition_fails d k
| unit_absent_from_source cv src :
    find_unit d k = Some cv →
    resolve d (kw_source_path k) = Some src →
    cv_pk cv ∉ current_content src →
    precondition_fails d k
| unit_already_in_dest cv dst :
    find_unit d k = Some cv →
    resolve d (kw_dest_path k) = Some dst →
    cv_pk cv ∈ current_content dst →
    precondition_fails d k.

(** All the checks pass for unit [cv], source [src] and destination [dst]. *)
Record preconditions_hold (d : Database) (k : Kwargs)
    (cv : CollectionVersion) (src dst : Repository) : Prop := {
  pre_unit : find_unit d k = Some cv;
  pre_source : resolve d (kw_source_path k) = Some src;
  pre_dest : resolve d (kw_dest_path k) = Some dst;
  pre_in_source : cv_pk cv ∈ current_content src;
  pre_not_in_dest : cv_pk cv ∉ current_content dst;
}.

(** The messages of the four errors. *)
Definition msg_unit_not_found (k : Kwargs) : string :=
  "Collection " +:+ version_str_of k +:+ " not found".
Definition msg_repos_not_found (k : Kwargs) : string :=
  "Repo(s) for moving collection " +:+ version_str_of k +:+ " not found".
Definition msg_not_in_source (k : Kwargs) : string :=
  "Collection " +:+ version_str_of k +:+ " not found in source repo".
Definition msg_already_in_dest (k : Kwargs) : string :=
  "Collection " +:+ version_str_of k +:+ " already found in destination repo".

(** The calls made up to each check, in order. *)
Definition calls_unit (k : Kwargs) : list Call :=
  [CollectionVersion_get (kw_namespace k) (kw_name k) (kw_version k)].
Definition calls_source_path (k : Kwargs) : list Call :=
  calls_unit k ++ [AnsibleDistribution_get (kw_source_path k)].
Definition calls_dest_path (k : Kwargs) : list Call :=
  calls_source_path k ++ [AnsibleDistribution_get (kw_dest_path k)].
Definition calls_source_check (k : Kwargs) (src : Repository) : list Call :=
  calls_dest_path k ++
  [Repository_latest_version (repo_pk src);
   CollectionVersion_filter (current_content src)].
Definition calls_dest_check (k : Kwargs) (src dst : Repository) : list Call :=
  calls_source_check k src ++
  [Repository_latest_version (repo_pk dst);
   CollectionVersion_filter (current_content dst)].

(** The two tasks of a successful move, as the queue records them. *)
Definition add_task_of (w : World) (cv : CollectionVersion) (dst : Repository)
  : Task :=
  {| id := length (tasks w); task_func := add_content_to_repository;
     reserved_resources := [repo_pk dst];
     task_args := (cv_pk cv, repo_pk dst); state := Waiting |}.
Definition remove_task_of (w : World) (cv : CollectionVersion)
    (src : Repository) : Task :=
  {| id := S (length (tasks w)); task_func := remove_content_from_repository;
     reserved_resources := [repo_pk src];
     task_args := (cv_pk cv, repo_pk src); state := Waiting |}.

(** A failing run: exception [e] after the calls [cs], nothing submitted. *)
Definition failed (w : World) (e : exn) (cs : list Call)
  : outcome Response * World :=
  (Raise e, {| db := db w; tasks := tasks w; trace := trace w ++ cs |}).

(** The runs of [move_content], one constructor per way out of the
    handler. *)
Inductive move_run (k : Kwargs) (w : World)
  : outcome Response * World → Prop :=
| run_unit_refused :
    key_has_nul k = true →
    move_run k w (failed w NulValueError (calls_unit k))
| run_unit_not_found :
    key_has_nul k = false →
    find_unit (db w) k = None →
    move_run k w (failed w (NotFound (msg_unit_not_found k)) (calls_unit k))
| run_source_refused cv :
    find_unit (db w) k = Some cv →
    lookup_path (db w) (kw_source_path k) = LookupRefused →
    move_run k w (failed w NulValueError (calls_source_path k))
| run_source_unresolved cv :
    find_unit (db w) k = Some cv →
    lookup_path (db w) (kw_source_path k) = LookupDoesNotExist →
    move_run k w
      (failed w (NotFound (msg_repos_not_found k)) (calls_source_path k))
| run_dest_refused cv src :
    find_unit (db w) k = Some cv →
    looked_up (lookup_path (db w) (kw_source_path k)) = Some src →
    lookup_path (db w) (kw_dest_path k) = LookupRefused →
    move_run k w (failed w NulValueError (calls_dest_path k))
| run_dest_unresolved cv src :
    find_unit (db w) k = Some cv →
    looked_up (lookup_path (db w) (kw_source_path k)) = Some src →
    lookup_path (db w) (kw_dest_path k) = LookupDoesNotExist →
    move_run k w
      (failed w (NotFound (msg_repos_not_found k)) (calls_dest_path k))
| run_source_None cv dst :
    find_unit (db w) k = Some cv →
    lookup_path (db w) (kw_source_path k) = LookupNone →
    looked_up (lookup_path (db w) (kw_dest_path k)) = Some dst →
    move_run k w (failed w NoneTypeAttributeError (calls_dest_path k))
| run_not_in_source cv src dst :
    find_unit (db w) k = Some cv →
    resolve (db w) (kw_source_path k) = Some src →
    looked_up (lookup_path (db w) (kw_dest_path k)) = Some dst →
    cv_pk cv ∉ current_content src →
    move_run k w
      (failed w (NotFound (msg_not_in_source k)) (calls_source_check k src))
| run_dest_None cv src :
    find_unit (db w) k = Some cv →
    resolve (db w) (kw_source_path k) = Some src →
    lookup_path (db w) (kw_dest_path k) = LookupNone →
    cv_pk cv ∈ current_content src →
    move_run k w
      (failed w NoneTypeAttributeError (calls_source_check k src))
| run_already_in_dest cv src dst :
    find_unit (db w) k = Some cv →
    resolve (db w) (kw_source_path k) = Some src →
    resolve (db w) (kw_dest_path k) = Some dst →
    cv_pk cv ∈ current_content src →
    cv_pk cv ∈ current_content dst →
    move_run k w
      (failed w (APIException (msg_already_in_dest k))
         (calls_dest_check k src dst))
| run_accepted cv src dst :
    preconditions_hold (db w) k cv src dst →
    move_run k w
      (Return {| data := [("add_task_id", id (add_task_of w cv dst));
                          ("remove_task_id", id (remove_task_of w cv src))];
                 status := "202" |},
       {| db := db w;
          tasks := tasks w ++ [add_task_of w cv dst; remove_task_of w cv src];
          trace := trace w ++ calls_dest_check k src dst ++
                   [Enqueue add_content_to_repository [repo_pk dst]
                      (cv_pk cv, repo_pk dst);
                    Enqueue remove_content_from_repository [repo_pk src]
                      (cv_pk cv, repo_pk src)] |}).

(** ** A concrete scenario *)

Module Scenario.

(** Unit acme-tool-1.0.0 (pk 7) is in repository 1 (path "src") and not
    in repository 2 (path "dst"); repository 3 (path "both") holds it
    too; the distribution at path "bare" has no repository. *)
Definition db0 : Database :=
  {| collection_versions :=
       {[ ("acme", "tool", "1.0.0") := 7; ("acme", "tool", "2.0.0") := 8 ]};
     distributions := {[ "src" := Some 1; "dst" := Some 2; "both" := Some 3;
                         "bare" := None ]};
     repositories :=
       {[ 1 := [ {| rv_number := 1; content := {[ 7 ]} |} ];
          2 := [];
          3 := [ {| rv_number := 1; content := {[ 8 ]} |};
                 {| rv_number := 2; content := {[ 7; 8 ]} |} ] ]} |}.

Definition w0 : World := {| db := db0; tasks := []; trace := [] |}.

Definition unit1 : CollectionVersion :=
  {| cv_pk := 7; cv_namespace := "acme"; cv_name := "tool";
     cv_version := "1.0.0" |}.
Definition repo_src : Repository :=
  {| repo_pk := 1;
     repo_versions := [ {| rv_number := 1; content := {[ 7 ]} |} ] |}.
Definition repo_dst : Repository := {| repo_pk := 2; repo_versions := [] |}.
Definition repo_both : Repository :=
  {| repo_pk := 3;
     repo_versions := [ {| rv_number := 1; content := {[ 8 ]} |};
                        {| rv_number := 2; content := {[ 7; 8 ]} |} ] |}.

Definition req (v src dst : string) : Kwargs :=
  {| kw_namespace := "acme"; kw_name := "tool"; kw_version := v;
     kw_source_path := src; kw_dest_path := dst |}.

(** A request whose namespace is "acme" followed by a NUL character. *)
Definition req_nul : Kwargs :=
  {| kw_namespace := "acme" +:+ String nul ""; kw_name := "tool";
     kw_version := "1.0.0"; kw_source_path := "src"; kw_dest_path := "dst" |}.

End Scenario.

(** ** The conflict error as the specification words it

    The specification asks for a 4xx client error, of a kind other than
    [NotFound], when the unit is already in the destination. *)
Definition conflict_is_client_error (k : Kwargs) (w : World) : Prop :=
  ∀ cv src dst,
    find_unit (db w) k = Some cv →
    resolve (db w) (kw_source_path k) = Some src →
    resolve (db w) (kw_dest_path k) = Some dst →
    cv_pk cv ∈ current_content src →
    cv_pk cv ∈ current_content dst →
    ∃ e, (move_content k w).1 = Raise e ∧
         is_client_error (status_code e) = true ∧
         is_NotFound e = false ∧
         str_contains "already found in destination repo" (detail_of e)
         = true ∧
         tasks (move_content k w).2 = tasks w.

(** ** Two more claims as the specification words them

    A request whose unit is missing is to end in [NotFound], and so is a
    request with a path that does not resolve to a repository. *)
Definition missing_unit_is_NotFound (k : Kwargs) (w : World) : Prop :=
  collection_versions (db w) !! (kw_namespace k, kw_name k, kw_version k)
  = None →
  ∃ e, (move_content k w).1 = Raise e ∧ is_NotFound e = true.


(** ** Workers

    The task bodies live in [galaxy_ng.app.tasks]; the handler only names
    them. *)

(** Modelled from the spec: the store's "append version with content
    added/removed": the new version's content is the current content
    changed by [f]. *)
Definition append_version (f : gset Pk → gset Pk)
    (vs : list RepositoryVersion) : list RepositoryVersion :=
  let cur := List.last vs version_zero in
  vs ++ [ {| rv_number := S (rv_number cur); content := f (content cur) |} ].

(** Modelled from the spec: what running a task does to the database; the
    repository named by the task's second argument gets a new version with
    the unit added or removed. *)
Definition run_task (t : Task) (d : Database) : Database :=
  let '(unit_pk, repository_pk) := task_args t in
  let f := match task_func t with
           | add_content_to_repository => λ c, c ∪ {[ unit_pk ]}
           | remove_content_from_repository => λ c, c ∖ {[ unit_pk ]}
           end in
  {| collection_versions := collection_versions d;
     distributions := distributions d;
     repositories := alter (append_version f) repository_pk (repositories d) |}.

(** Modelled from the spec: a worker that works off the queue, oldest task
    first. *)
Definition work_off (w : World) : World :=
  {| db := foldl (λ d t, run_task t d) (db w) (tasks w);
     tasks := (λ t, {| id := id t; task_func := task_func t;
                       reserved_resources := reserved_resources t;
                       task_args := task_args t; state := Completed |})
                <$> tasks w;
     trace := trace w |}.

(** Normal form of the worlds and traces of a run. *)
Ltac unfold_run :=
  unfold failed, log, calls_dest_check, calls_source_check, calls_dest_path,
    calls_source_path, calls_unit, msg_unit_not_found, msg_repos_not_found,
    msg_not_in_source, msg_already_in_dest in *;
  simpl in *; rewrite <- ?(assoc_L (++)) in *; simpl in *.

(** Decides a closed decidable proposition by evaluation. *)
Ltac by_evaluation := apply (bool_decide_unpack _); vm_compute; exact I.

(** * The other views of [collection.py] *)

(** ** More of Python's strings *)

(** [s.lstrip(c)] for a one-character [c]. *)
Fixpoint str_lstrip (c : Ascii.ascii) (s : string) : string :=
  match s with
  | EmptyString => EmptyString
  | String a s' => if Ascii.eqb a c then str_lstrip c s' else s
  end.

(** [s.rstrip(c)] for a one-character [c]. *)
Fixpoint str_rstrip (c : Ascii.ascii) (s : string) : string :=
  match s with
  | EmptyString => EmptyString
  | String a s' =>
      match str_rstrip c s' with
      | EmptyString => if Ascii.eqb a c then EmptyString else String a ""
      | r => String a r
      end
  end.

(** [s.strip(c)]: leading and trailing occurrences of [c] are removed. *)
Definition str_strip (c : Ascii.ascii) (s : string) : string :=
  str_lstrip c (str_rstrip c s).

(** [s.split(sep)] for a one-character [sep]: the pieces between the
    separators, empty pieces included; never the empty list. *)
Fixpoint str_split (sep : Ascii.ascii) (s : string) : list string :=
  match s with
  | EmptyString => [EmptyString]
  | String a s' =>
      if Ascii.eqb a sep then EmptyString :: str_split sep s'
      else match str_split sep s' with
           | piece :: pieces => String a piece :: pieces
           | [] => [String a EmptyString]
           end
  end.

(** The character [/]. *)
Definition slash : Ascii.ascii := Ascii.ascii_of_nat 47.

(** The one-character string holding a double quote. *)
Definition double_quote : string :=
  String (Ascii.ascii_of_nat 34) EmptyString.

(** [str(n)] for a non-negative integer. *)
Definition str_of_nat (n : nat) : string :=
  NilEmpty.string_of_uint (Nat.to_uint n).

(** ** ViewNamespaceSerializerContextMixin *)

(** [request.resolver_match], with the two attributes the mixin reads. *)
Record ResolverMatch := {
  rm_namespace : string;
  rm_route : string;
}.

(** A request; Django leaves [resolver_match] at [None] until the URL has
    been resolved. *)
Record Request := {
  resolver_match : option ResolverMatch;
}.

(** The values a serializer context holds. *)
Inductive ctx_value : Type :=
| CtxNone
| CtxStr (s : string)
| CtxRequest (r : Request)
| CtxObject (ident : nat).

(** Python's truth value of a context value. *)
Definition truthy (v : ctx_value) : bool :=
  match v with
  | CtxNone => false
  | CtxStr s => negb (String.eqb s "")
  | CtxRequest _ | CtxObject _ => true
  end.

Inductive ctx_outcome : Type :=
| Context (context : gmap string ctx_value)
| AttributeError.

(** [get_serializer_context], given the dict that
    [super().get_serializer_context()] returns. *)
Definition get_serializer_context (super_context : gmap string ctx_value)
  : ctx_outcome :=
  let context := super_context in
  let request := default CtxNone (context !! "request") in
  let context := <["view_namespace" := CtxNone]> context in
  if truthy request then
    match request with
    | CtxRequest {| resolver_match := Some rm |} =>
        let context :=
          <["view_namespace" := CtxStr (rm_namespace rm)]> context in
        let context := <["view_route" := CtxStr (rm_route rm)]> context in
        Context context
    | _ => AttributeError
    end
  else Context context.

(** ** CollectionUploadViewSet *)

Inductive ImportTaskFunc : Type :=
| import_and_move_to_staging
| import_and_auto_approve.

(** The values of the keyword arguments handed to an import task. *)
Inductive kwarg : Type :=
| KwPk (pk : Pk)
| KwStr (s : string).

(** An import task as the queue records it. *)
Record ImportTask := {
  import_func : ImportTaskFunc;
  import_locks : list Pk;
  import_kwargs : gmap string kwarg;
}.

(** [_dispatch_import_collection_task(temp_file_pk, repository=None,
    **kwargs)], as a function of the setting
    [GALAXY_REQUIRE_CONTENT_APPROVAL] and of the queue of import tasks;
    it returns the task enqueued and the queue after the call. *)
Definition _dispatch_import_collection_task
    (GALAXY_REQUIRE_CONTENT_APPROVAL : bool)
    (temp_file_pk : Pk) (repository : option Repository)
    (kwargs : gmap string kwarg) (queue : list ImportTask)
  : ImportTask * list ImportTask :=
  let locks := [] in
  let kwargs := <["temp_file_pk" := KwPk temp_file_pk]> kwargs in
  let '(locks, kwargs) :=
    match repository with
    | Some repo =>
        (locks ++ [repo],
         <["repository_pk" := KwPk (repo_pk repo)]> kwargs)
    | None => (locks, kwargs)
    end in
  let enqueue func :=
    let t := {| import_func := func; import_locks := repo_pk <$> locks;
                import_kwargs := kwargs |} in
    (t, queue ++ [t]) in
  if GALAXY_REQUIRE_CONTENT_APPROVAL
  then enqueue import_and_move_to_staging
  else enqueue import_and_auto_approve.

(** The tables [_check_path_matches_expected_repo] reads: distributions by
    [base_path], each with its nullable repository key, and the [name]
    column of the repositories. *)
Record InboundTables := {
  inbound_distributions : gmap string (option Pk);
  repository_names : gmap Pk string;
}.

Inductive path_check : Type :=
| PathAccepted
| PathHttp404
| PathRaised (e : exn).

Section InboundFormat.

(** [INBOUND_REPO_NAME_FORMAT.format(namespace_name=ns)]; the constant is
    imported from [galaxy_ng.app.api.v3.viewsets.namespace]. *)
Variable INBOUND_REPO_NAME_FORMAT : string → string.

(** [_check_path_matches_expected_repo(path, filename_ns)].
    [get_object_or_404] turns a missing distribution into [Http404] and
    lets the driver's [ValueError] for a NUL character through;
    [distro.repository] is [None] for a NULL key, on which [.name] raises
    [AttributeError], and is read as in [repository] above otherwise. *)
Definition _check_path_matches_expected_repo
    (tables : InboundTables) (path filename_ns : string) : path_check :=
  if has_nul path then PathRaised NulValueError
  else
  match inbound_distributions tables !! path with
  | None => PathHttp404
  | Some None => PathRaised NoneTypeAttributeError
  | Some (Some rid) =>
      match repository_names tables !! rid with
      | None => PathRaised ObjectDoesNotExist
      | Some repo_name =>
          if String.eqb (INBOUND_REPO_NAME_FORMAT filename_ns) repo_name
          then PathAccepted
          else PathRaised
                 (APIException
                    ("Path does not match: " +:+ double_quote +:+
                     INBOUND_REPO_NAME_FORMAT filename_ns +:+ double_quote))
      end
  end.

End InboundFormat.

(** Lines 203-204 of [create]:
    [task_href.strip("/").split("/")[-1]]; [None] stands for the
    [IndexError] of [[-1]] on an empty list. *)
Definition task_id_of_href (task_href : string) : option string :=
  last (str_split slash (str_strip slash task_href)).

(** ** CollectionArtifactDownloadView *)

(** The three settings the view reads, as [str.format] renders them. *)
Record Settings := {
  X_PULP_CONTENT_HOST : string;
  X_PULP_CONTENT_PORT : string;
  CONTENT_PATH_PREFIX : string;
}.

(** What [requests.get] returned: the status code, the header lookup
    [response.headers[name]] and the body behind [response.raw]. *)
Record UpstreamResponse := {
  upstream_status : nat;
  upstream_header : string → option string;
  upstream_raw : string;
}.

(** The three counters of [galaxy_ng.app.common.metrics] the view touches;
    the failures counter has one child per [status] label. *)
Record Metrics := {
  collection_artifact_download_attempts : nat;
  collection_artifact_download_successes : nat;
  collection_artifact_download_failures : gmap nat nat;
}.

Definition inc_attempts (m : Metrics) : Metrics :=
  {| collection_artifact_download_attempts :=
       S (collection_artifact_download_attempts m);
     collection_artifact_download_successes :=
       collection_artifact_download_successes m;
     collection_artifact_download_failures :=
       collection_artifact_download_failures m |}.

Definition inc_successes (m : Metrics) : Metrics :=
  {| collection_artifact_download_attempts :=
       collection_artifact_download_attempts m;
     collection_artifact_download_successes :=
       S (collection_artifact_download_successes m);
     collection_artifact_download_failures :=
       collection_artifact_download_failures m |}.

(** [failures.labels(status=label).inc()]. *)
Definition inc_failures (label : nat) (m : Metrics) : Metrics :=
  {| collection_artifact_download_attempts :=
       collection_artifact_download_attempts m;
     collection_artifact_download_successes :=
       collection_artifact_download_successes m;
     collection_artifact_download_failures :=
       <[label := S (default 0 (collection_artifact_download_failures m
                                  !! label))]>
         (collection_artifact_download_failures m) |}.

(** The failures counted over all labels. *)
Definition total_failures (m : Metrics) : nat :=
  map_fold (λ _ n acc, n + acc) 0 (collection_artifact_download_failures m).

Inductive DownloadResponse : Type :=
| HttpResponseRedirect (location : string)
| StreamingHttpResponse (body : string) (content_type : string).

(** How a call of the view ends: a response, an exception of the
    handler's own, or the [KeyError] of a header that is not there. *)
Inductive download_outcome : Type :=
| Responded (r : DownloadResponse)
| Raised (e : exn)
| RaisedKeyError.

(** The URL the view asks the content app for. *)
Definition download_url (settings : Settings)
    (distro_base_path filename : string) : string :=
  "http://" +:+ X_PULP_CONTENT_HOST settings +:+ ":" +:+
  X_PULP_CONTENT_PORT settings +:+ "/" +:+
  str_strip slash (CONTENT_PATH_PREFIX settings) +:+ "/" +:+
  distro_base_path +:+ "/" +:+ filename.

(** [CollectionArtifactDownloadView.get], with [requests_get url] the
    answer of the content app to [requests.get(url, stream=True,
    allow_redirects=False)]; [requests.codes] names 404, 302 and 200. *)
Definition CollectionArtifactDownloadView_get
    (settings : Settings) (requests_get : string → UpstreamResponse)
    (path filename : string) (metrics : Metrics)
  : download_outcome * Metrics :=
  let metrics := inc_attempts metrics in
  let url := download_url settings path filename in
  let response := requests_get url in
  if upstream_status response =? 404 then
    (Raised (NotFound "Not found."), inc_failures 404 metrics)
  else if upstream_status response =? 302 then
    match upstream_header response "Location" with
    | Some location => (Responded (HttpResponseRedirect location), metrics)
    | None => (RaisedKeyError, metrics)
    end
  else if upstream_status response =? 200 then
    let metrics := inc_successes metrics in
    match upstream_header response "Content-Type" with
    | Some content_type =>
        (Responded (StreamingHttpResponse (upstream_raw response)
                      content_type), metrics)
    | None => (RaisedKeyError, metrics)
    end
  else
    (Raised (APIException
               ("Unexpected response from content app. " +:+
                "Code: " +:+ str_of_nat (upstream_status response) +:+ ".")),
     inc_failures (upstream_status response) metrics).

(** * Lemmas about the model *)

(** A unit of the table is in the filtered queryset exactly when its primary
    key is in the set filtered on. *)
Lemma in_queryset_filter (d : Database) (k : Kwargs) (cv : CollectionVersion)
    (pks : gset Pk) :
  find_unit d k = Some cv →
  in_queryset cv (filter_pk_in d pks) = bool_decide (cv_pk cv ∈ pks).
Proof.
  intros Hfind. unfold find_unit in Hfind.
  destruct (key_has_nul k); [done|].
  destruct (collection_versions d !! _) as [pk|] eqn:Hpk; simplify_eq/=.
  apply Bool.eq_iff_eq_true. rewrite bool_decide_eq_true.
  unfold in_queryset, filter_pk_in. rewrite existsb_exists. split.
  - intros (x & Hx & Heq). apply filter_In in Hx as [_ Hin].
    apply bool_decide_eq_true in Heq. apply bool_decide_eq_true in Hin.
    simpl in Heq. by rewrite <- Heq.
  - intros Hin.
    exists {| cv_pk := pk; cv_namespace := kw_namespace k;
              cv_name := kw_name k; cv_version := kw_version k |}.
    split; [|by apply bool_decide_eq_true].
    apply filter_In. split; [|by apply bool_decide_eq_true].
    apply list_elem_of_In, list_elem_of_fmap.
    exists (kw_namespace k, kw_name k, kw_version k, pk).
    split; [done|]. by apply elem_of_map_to_list.
Qed.

Section Steps.

Variables (k : Kwargs) (w : World).

(** Lines 276-283: the unit lookup with its [except] clause. *)
Lemma unit_lookup_step (e : exn) :
  e ≠ ObjectDoesNotExist →
  try_except_ObjectDoesNotExist
    (CollectionVersion_objects_get
       (kw_namespace k) (kw_name k) (kw_version k))
    (raise e) w
  = (if key_has_nul k then Raise NulValueError
     else match find_unit (db w) k with
          | Some cv => Return cv
          | None => Raise e
          end,
     log (CollectionVersion_get (kw_namespace k) (kw_name k) (kw_version k))
       w).
Proof.
  intros _.
  unfold try_except_ObjectDoesNotExist, CollectionVersion_objects_get,
    find_unit, key_has_nul, raise.
  destruct (has_nul (kw_namespace k) || has_nul (kw_name k)
            || has_nul (kw_version k)); [done|].
  by destruct (collection_versions (db w) !! _).
Qed.

(** One path lookup, [AnsibleDistribution.objects.get(...).repository]. *)
Lemma path_lookup_step (path : string) (w1 : World) :
  (let* dist := AnsibleDistribution_objects_get path in repository dist) w1
  = (match lookup_path (db w1) path with
     | LookupRefused => Raise NulValueError
     | LookupDoesNotExist => Raise ObjectDoesNotExist
     | LookupNone => Return None
     | LookupRepository repo => Return (Some repo)
     end,
     log (AnsibleDistribution_get path) w1).
Proof.
  unfold bind, AnsibleDistribution_objects_get, repository, lookup_path.
  destruct (has_nul path); [done|].
  destruct (distributions (db w1) !! path) as [[rid|]|]; simpl; [|done..].
  by destruct (repositories (db w1) !! rid).
Qed.

(** Lines 285-291: the two path lookups with their shared [except]
    clause. *)
Lemma repo_lookup_step (e : exn) :
  try_except_ObjectDoesNotExist
    (let* src_dist :=
       AnsibleDistribution_objects_get (kw_source_path k) in
     let* src_repo := repository src_dist in
     let* dest_dist :=
       AnsibleDistribution_objects_get (kw_dest_path k) in
     let* dest_repo := repository dest_dist in
     ret (src_repo, dest_repo))
    (raise e) w
  = let w1 := log (AnsibleDistribution_get (kw_source_path k)) w in
    let w2 := log (AnsibleDistribution_get (kw_dest_path k)) w1 in
    match lookup_path (db w) (kw_source_path k) with
    | LookupRefused => (Raise NulValueError, w1)
    | LookupDoesNotExist => (Raise e, w1)
    | src_lookup =>
        match lookup_path (db w) (kw_dest_path k) with
        | LookupRefused => (Raise NulValueError, w2)
        | LookupDoesNotExist => (Raise e, w2)
        | dest_lookup =>
            (Return (default None (looked_up src_lookup),
                     default None (looked_up dest_lookup)), w2)
        end
    end.
Proof.
  pose proof (path_lookup_step (kw_source_path k) w) as Hsrc.
  pose proof (path_lookup_step (kw_dest_path k)
                (log (AnsibleDistribution_get (kw_source_path k)) w)) as Hdst.
  unfold bind in Hsrc, Hdst.
  unfold try_except_ObjectDoesNotExist, bind, ret, raise.
  destruct (AnsibleDistribution_objects_get (kw_source_path k) w)
    as [[src_dist|e1] w1]; simpl in *.
  - destruct (repository src_dist w1) as [[src_repo|e1] w1'] eqn:Hrepo;
      simpl in *;
      destruct (lookup_path (db w) (kw_source_path k)); simplify_eq; try done;
      (destruct (AnsibleDistribution_objects_get (kw_dest_path k) _)
         as [[dest_dist|e2] w2]; simpl in *;
       [destruct (repository dest_dist w2) as [[dest_repo|e2] w2']|];
       simpl in *;
       destruct (lookup_path (db w) (kw_dest_path k)); by simplify_eq).
  - destruct (lookup_path (db w) (kw_source_path k)); by simplify_eq.
Qed.

End Steps.

(** Every run of the handler is one of the runs of [move_run]. *)
Lemma move_content_run (k : Kwargs) (w : World) :
  move_run k w (move_content k w).
Proof.
  unfold move_content. unfold bind at 1. rewrite unit_lookup_step by done.
  destruct (key_has_nul k) eqn:Hnul.
  { pose proof (run_unit_refused k w Hnul) as Hrun. by unfold_run. }
  destruct (find_unit (db w) k) as [cv|] eqn:Hcv.
  2: { pose proof (run_unit_not_found k w Hnul Hcv) as Hrun. by unfold_run. }
  unfold bind at 1. rewrite repo_lookup_step. simpl.
  destruct (lookup_path (db w) (kw_source_path k)) as [| | |src] eqn:Hsrc.
  { pose proof (run_source_refused k w cv Hcv Hsrc) as Hrun. by unfold_run. }
  { pose proof (run_source_unresolved k w cv Hcv Hsrc) as Hrun.
    by unfold_run. }
  - (* the source distribution has no repository *)
    destruct (lookup_path (db w) (kw_dest_path k)) as [| | |dst] eqn:Hdst;
      simpl.
    + pose proof (run_dest_refused k w cv None Hcv) as Hrun.
      rewrite Hsrc, Hdst in Hrun. specialize (Hrun eq_refl eq_refl).
      by unfold_run.
    + pose proof (run_dest_unresolved k w cv None Hcv) as Hrun.
      rewrite Hsrc, Hdst in Hrun. specialize (Hrun eq_refl eq_refl).
      by unfold_run.
    + pose proof (run_source_None k w cv None Hcv Hsrc) as Hrun.
      rewrite Hdst in Hrun. specialize (Hrun eq_refl). by unfold_run.
    + pose proof (run_source_None k w cv (Some dst) Hcv Hsrc) as Hrun.
      rewrite Hdst in Hrun. specialize (Hrun eq_refl). by unfold_run.
  - (* the source path resolves *)
    assert (Hres : resolve (db w) (kw_source_path k) = Some src)
      by (unfold resolve; by rewrite Hsrc).
    destruct (lookup_path (db w) (kw_dest_path k)) as [| | |dst] eqn:Hdst;
      simpl.
    + pose proof (run_dest_refused k w cv (Some src) Hcv) as Hrun.
      rewrite Hsrc, Hdst in Hrun. specialize (Hrun eq_refl eq_refl).
      by unfold_run.
    + pose proof (run_dest_unresolved k w cv (Some src) Hcv) as Hrun.
      rewrite Hsrc, Hdst in Hrun. specialize (Hrun eq_refl eq_refl).
      by unfold_run.
    + unfold bind, latest_version_content,
        CollectionVersion_objects_filter_pk_in, raise, ret; simpl.
      fold (current_content src).
      rewrite (in_queryset_filter (db w) k cv) by done.
      destruct (decide (cv_pk cv ∈ current_content src)) as [Hin|Hout].
      * rewrite (bool_decide_eq_true_2 _ Hin); simpl.
        pose proof (run_dest_None k w cv src Hcv Hres Hdst Hin) as Hrun.
        by unfold_run.
      * rewrite (bool_decide_eq_false_2 _ Hout); simpl.
        pose proof (run_not_in_source k w cv src None Hcv Hres) as Hrun.
        rewrite Hdst in Hrun. specialize (Hrun eq_refl Hout). by unfold_run.
    + assert (Hres' : resolve (db w) (kw_dest_path k) = Some dst)
        by (unfold resolve; by rewrite Hdst).
      unfold bind, latest_version_content,
        CollectionVersion_objects_filter_pk_in, raise, ret; simpl.
      fold (current_content src). fold (current_content dst).
      rewrite (in_queryset_filter (db w) k cv) by done.
      destruct (decide (cv_pk cv ∈ current_content src)) as [Hin|Hout].
      * rewrite (bool_decide_eq_true_2 _ Hin); simpl.
        rewrite (in_queryset_filter (db w) k cv) by done.
        destruct (decide (cv_pk cv ∈ current_content dst)) as [Hin'|Hout'].
        -- rewrite (bool_decide_eq_true_2 _ Hin'); simpl.
           pose proof (run_already_in_dest k w cv src dst
                         Hcv Hres Hres' Hin Hin') as Hrun.
           by unfold_run.
        -- rewrite (bool_decide_eq_false_2 _ Hout'); simpl.
           pose proof (run_accepted k w cv src dst
                         (Build_preconditions_hold _ _ _ _ _
                            Hcv Hres Hres' Hin Hout'))
             as Hrun.
           unfold_run. rewrite length_app, Nat.add_1_r. exact Hrun.
      * rewrite (bool_decide_eq_false_2 _ Hout); simpl.
        pose proof (run_not_in_source k w cv src (Some dst) Hcv Hres) as Hrun.
        rewrite Hdst in Hrun. specialize (Hrun eq_refl Hout). by unfold_run.
Qed.

(** A unit that is found has a key free of NUL, and a path that resolves is
    looked up as a repository. *)
Lemma find_unit_Some (d : Database) (k : Kwargs) (cv : CollectionVersion) :
  find_unit d k = Some cv → key_has_nul k = false.
Proof. unfold find_unit. by destruct (key_has_nul k). Qed.

Lemma resolve_Some (d : Database) (path : string) (repo : Repository) :
  resolve d path = Some repo ↔ lookup_path d path = LookupRepository repo.
Proof.
  unfold resolve. destruct (lookup_path d path); split; intros; by simplify_eq.
Qed.

(** The lookups of a request have one answer each, so a request has one
    run. *)
Lemma move_run_functional (k : Kwargs) (w : World)
    (r1 r2 : outcome Response * World) :
  move_run k w r1 → move_run k w r2 → r1 = r2.
Proof.
  intros H1 H2.
  destruct H1; destruct H2;
    repeat match goal with
      | H : preconditions_hold _ _ _ _ _ |- _ => destruct H
      end;
    repeat match goal with
      | H : resolve _ _ = Some _ |- _ => apply resolve_Some in H
      end;
    repeat match goal with
      | H : lookup_path ?d ?p = _, H' : context [lookup_path ?d ?p] |- _ =>
          rewrite H in H'; simpl in H'
      end;
    try match goal with
      | H : find_unit _ _ = Some _ |- _ =>
          pose proof (find_unit_Some _ _ _ H)
      end;
    simplify_eq/=; try done; congruence.
Qed.

(** The run of a request is the one [move_run] names. *)
Lemma move_content_eq (k : Kwargs) (w : World)
    (r : outcome Response * World) :
  move_run k w r → move_content k w = r.
Proof.
  intros H. exact (move_run_functional k w _ _ (move_content_run k w) H).
Qed.

(** ** One equation per run *)

Section Runs.

Variables (k : Kwargs) (w : World).

Lemma unit_not_found_run :
  key_has_nul k = false →
  find_unit (db w) k = None →
  move_content k w
  = failed w (NotFound (msg_unit_not_found k)) (calls_unit k).
Proof. intros. by apply move_content_eq, run_unit_not_found. Qed.



Lemma not_in_source_run cv src dst :
  find_unit (db w) k = Some cv →
  resolve (db w) (kw_source_path k) = Some src →
  resolve (db w) (kw_dest_path k) = Some dst →
  cv_pk cv ∉ current_content src →
  move_content k w
  = failed w (NotFound (msg_not_in_source k)) (calls_source_check k src).
Proof.
  intros ? ? Hdst%resolve_Some ?.
  eapply move_content_eq, (run_not_in_source _ _ cv src (Some dst)); try done.
  by rewrite Hdst.
Qed.

Lemma already_in_dest_run cv src dst :
  find_unit (db w) k = Some cv →
  resolve (db w) (kw_source_path k) = Some src →
  resolve (db w) (kw_dest_path k) = Some dst →
  cv_pk cv ∈ current_content src →
  cv_pk cv ∈ current_content dst →
  move_content k w
  = failed w (APIException (msg_already_in_dest k))
      (calls_dest_check k src dst).
Proof. intros. by eapply move_content_eq, run_already_in_dest. Qed.

Lemma accepted_run cv src dst :
  preconditions_hold (db w) k cv src dst →
  move_content k w
  = (Return {| data := [("add_task_id", id (add_task_of w cv dst));
                        ("remove_task_id", id (remove_task_of w cv src))];
               status := "202" |},
     {| db := db w;
        tasks := tasks w ++ [add_task_of w cv dst; remove_task_of w cv src];
        trace := trace w ++ calls_dest_check k src dst ++
                 [Enqueue add_content_to_repository [repo_pk dst]
                    (cv_pk cv, repo_pk dst);
                  Enqueue remove_content_from_repository [repo_pk src]
                    (cv_pk cv, repo_pk src)] |}).
Proof. intros. by apply move_content_eq, run_accepted. Qed.

End Runs.

(** Two paths that resolve to repositories with one primary key resolve to
    one repository. *)
Lemma resolve_pk_inj (d : Database) (p1 p2 : string) (r1 r2 : Repository) :
  resolve d p1 = Some r1 → resolve d p2 = Some r2 →
  repo_pk r1 = repo_pk r2 → r1 = r2.
Proof.
  intros H1%resolve_Some H2%resolve_Some Hpk. unfold lookup_path in H1, H2.
  destruct (has_nul p1); [done|]. destruct (has_nul p2); [done|].
  destruct (distributions d !! p1) as [[i1|]|]; simplify_eq/=.
  destruct (distributions d !! p2) as [[i2|]|]; simplify_eq/=.
  destruct (repositories d !! i1) as [v1|] eqn:E1; simplify_eq/=.
  destruct (repositories d !! i2) as [v2|] eqn:E2; simplify_eq/=.
  done.
Qed.

(** ** Strings *)

Lemma string_app_cons (a : Ascii.ascii) (s t : string) :
  String a s +:+ t = String a (s +:+ t).
Proof. reflexivity. Qed.

Lemma string_app_assoc (s1 s2 s3 : string) :
  (s1 +:+ s2) +:+ s3 = s1 +:+ s2 +:+ s3.
Proof.
  induction s1 as [|a s1 IH]; [done|].
  by rewrite !string_app_cons, IH.
Qed.

Lemma prefix_app (p s : string) : String.prefix p (p +:+ s) = true.
Proof.
  induction p as [|a p IH]; [by destruct s|].
  rewrite string_app_cons. cbn. by destruct (Ascii.ascii_dec a a).
Qed.

Lemma str_contains_unfold (sub s : string) :
  str_contains sub s
  = String.prefix sub s ||
    match s with
    | EmptyString => false
    | String _ s' => str_contains sub s'
    end.
Proof. by destruct s. Qed.

Lemma str_contains_prefix (sub s : string) :
  String.prefix sub s = true → str_contains sub s = true.
Proof. intros H. by rewrite str_contains_unfold, H. Qed.

Lemma str_contains_app (sub pre post : string) :
  str_contains sub (pre +:+ sub +:+ post) = true.
Proof.
  induction pre as [|a pre IH].
  - change ("" +:+ sub +:+ post) with (sub +:+ post).
    apply str_contains_prefix, prefix_app.
  - rewrite string_app_cons, str_contains_unfold, IH. apply orb_true_r.
Qed.

(** A substring of a suffix is a substring of the whole. *)
Lemma str_contains_app_r (sub s t : string) :
  str_contains sub t = true → str_contains sub (s +:+ t) = true.
Proof.
  intros H. induction s as [|a s IH]; [done|].
  rewrite string_app_cons, str_contains_unfold, IH. apply orb_true_r.
Qed.

Lemma rev_app_app (s1 s2 acc : string) :
  String.rev_app (s1 +:+ s2) acc = String.rev_app s2 (String.rev_app s1 acc).
Proof.
  revert acc. induction s1 as [|a s1 IH]; intros acc; [done|].
  rewrite string_app_cons. cbn. apply IH.
Qed.

Lemma rev_app_acc (s acc : string) :
  String.rev_app s acc = String.rev s +:+ acc.
Proof.
  unfold String.rev. revert acc.
  induction s as [|a s IH]; intros acc; [done|].
  cbn. rewrite (IH (String a "")), (IH (String a acc)), string_app_assoc.
  done.
Qed.

Lemma rev_app_distr (s1 s2 : string) :
  String.rev (s1 +:+ s2) = String.rev s2 +:+ String.rev s1.
Proof. unfold String.rev at 1. by rewrite rev_app_app, rev_app_acc. Qed.

Lemma str_endswith_app (pre suffix : string) :
  str_endswith suffix (pre +:+ suffix) = true.
Proof. unfold str_endswith. by rewrite rev_app_distr, prefix_app. Qed.

(** No message of the destination conflict ends the way the message of the
    source check does. *)
Lemma already_in_dest_not_endswith_source (k : Kwargs) :
  str_endswith "source repo" (msg_already_in_dest k) = false.
Proof.
  unfold msg_already_in_dest, str_endswith.
  rewrite <- string_app_assoc, rev_app_distr. reflexivity.
Qed.

Lemma not_in_source_endswith_source (k : Kwargs) :
  str_endswith "source repo" (msg_not_in_source k) = true.
Proof.
  unfold msg_not_in_source.
  change " not found in source repo" with (" not found in " +:+ "source repo").
  rewrite <- !string_app_assoc. apply str_endswith_app.
Qed.

(** * The scenario, run *)

Module ScenarioRuns.
Import Scenario.

Lemma holds_src_dst :
  preconditions_hold db0 (req "1.0.0" "src" "dst") unit1 repo_src repo_dst.
Proof. split; [reflexivity..|by_evaluation|by_evaluation]. Defined.

Example accepted :
  (move_content (req "1.0.0" "src" "dst") w0).1
  = Return {| data := [("add_task_id", 0); ("remove_task_id", 1)];
              status := "202" |}.
Proof. reflexivity. Qed.

Example accepted_tasks :
  tasks (move_content (req "1.0.0" "src" "dst") w0).2
  = [ {| id := 0; task_func := add_content_to_repository;
         reserved_resources := [2]; task_args := (7, 2);
         state := Waiting |};
      {| id := 1; task_func := remove_content_from_repository;
         reserved_resources := [1]; task_args := (7, 1);
         state := Waiting |} ].
Proof. reflexivity. Qed.

Example conflict :
  (move_content (req "1.0.0" "src" "both") w0).1
  = Raise (APIException
             "Collection acme-tool-1.0.0 already found in destination repo").
Proof. reflexivity. Qed.

Example absent_from_source :
  (move_content (req "1.0.0" "dst" "src") w0).1
  = Raise (NotFound "Collection acme-tool-1.0.0 not found in source repo").
Proof. reflexivity. Qed.

Example no_such_unit :
  (move_content (req "3.0.0" "src" "dst") w0).1
  = Raise (NotFound "Collection acme-tool-3.0.0 not found").
Proof. reflexivity. Qed.

Example no_such_path :
  (move_content (req "1.0.0" "nonexistent" "dst") w0).1
  = Raise (NotFound
             "Repo(s) for moving collection acme-tool-1.0.0 not found").
Proof. reflexivity. Qed.

(** Once workers have run the two tasks of the accepted move, the unit is
    in the destination and no longer in the source. *)
Example refused_for_nul :
  (move_content req_nul w0).1 = Raise NulValueError.
Proof. reflexivity. Qed.

Example source_without_repository :
  (move_content (req "1.0.0" "bare" "dst") w0).1
  = Raise NoneTypeAttributeError.
Proof. reflexivity. Qed.

Example dest_without_repository :
  (move_content (req "1.0.0" "src" "bare") w0).1
  = Raise NoneTypeAttributeError.
Proof. reflexivity. Qed.

(** The source check comes first: with the unit absent from the source, a
    destination without repository is never read. *)
Example dest_without_repository_unit_absent :
  (move_content (req "1.0.0" "dst" "bare") w0).1
  = Raise (NotFound "Collection acme-tool-1.0.0 not found in source repo").
Proof. reflexivity. Qed.

Example moved_once_tasks_ran :
  let d := db (work_off (move_content (req "1.0.0" "src" "dst") w0).2) in
  current_content <$> resolve d "src" = Some ∅ ∧
  current_content <$> resolve d "dst" = Some {[ 7 ]}.
Proof. split; by_evaluation. Qed.

End ScenarioRuns.

(** * Properties of [move_content] *)

(** C1.  When any precondition check fails (the unit does not exist, the
    source or the destination path does not resolve, the unit is absent from
    the source's current version, or it is already in the destination's
    current version), the handler raises an exception, the task queue is
    left as it was, and none of the calls made is a call to
    [enqueue_with_reservation]. *)
Theorem no_submission_on_failed_precondition (k : Kwargs) (w : World) :
  precondition_fails (db w) k →
  ∃ e cs,
    (move_content k w).1 = Raise e ∧
    tasks (move_content k w).2 = tasks w ∧
    trace (move_content k w).2 = trace w ++ cs ∧
    forallb (λ c, negb (is_Enqueue c)) cs = true.
Proof.
  intros Hfail.
  destruct (move_content_run k w) as [| | | | | | | | | |cv src dst Hpre];
    try (eexists _, _; unfold failed; simpl; by repeat split).
  destruct Hpre, Hfail; simplify_eq; done.
Qed.

Lemma no_submission_on_failed_precondition_witness :
  precondition_fails (db Scenario.w0) (Scenario.req "1.0.0" "src" "both") ∧
  tasks (move_content (Scenario.req "1.0.0" "src" "both") Scenario.w0).2 = [].
Proof.
  assert (Hfail : precondition_fails (db Scenario.w0)
                    (Scenario.req "1.0.0" "src" "both")).
  { apply (unit_already_in_dest _ _ Scenario.unit1 Scenario.repo_both);
      [reflexivity..|by_evaluation]. }
  split; [exact Hfail|].
  destruct (no_submission_on_failed_precondition _ _ Hfail)
    as (e & cs & _ & Htasks & _).
  exact Htasks.
Defined.

(** C2.  On a successful move the queue receives exactly two tasks, the add
    task for the destination repository first and the remove task for the
    source repository second; in the trace of calls the add submission
    comes before the remove submission, and nothing is submitted before
    them. *)
Theorem add_submitted_before_remove (k : Kwargs) (w : World)
    (cv : CollectionVersion) (src dst : Repository) :
  preconditions_hold (db w) k cv src dst →
  ∃ add_task remove_task before,
    tasks (move_content k w).2 = tasks w ++ [add_task; remove_task] ∧
    task_func add_task = add_content_to_repository ∧
    reserved_resources add_task = [repo_pk dst] ∧
    task_func remove_task = remove_content_from_repository ∧
    reserved_resources remove_task = [repo_pk src] ∧
    trace (move_content k w).2
    = trace w ++ before ++
      [Enqueue add_content_to_repository [repo_pk dst] (cv_pk cv, repo_pk dst);
       Enqueue remove_content_from_repository [repo_pk src]
         (cv_pk cv, repo_pk src)] ∧
    forallb (λ c, negb (is_Enqueue c)) before = true.
Proof.
  intros Hpre. rewrite (accepted_run k w cv src dst Hpre); simpl.
  exists (add_task_of w cv dst), (remove_task_of w cv src),
    (calls_dest_check k src dst).
  by split_and!.
Qed.

Lemma add_submitted_before_remove_witness :
  preconditions_hold (db Scenario.w0) (Scenario.req "1.0.0" "src" "dst")
    Scenario.unit1 Scenario.repo_src Scenario.repo_dst ∧
  ∃ add_task remove_task,
    tasks (move_content (Scenario.req "1.0.0" "src" "dst") Scenario.w0).2
    = [add_task; remove_task] ∧
    task_func add_task = add_content_to_repository ∧
    task_func remove_task = remove_content_from_repository.
Proof.
  split; [exact ScenarioRuns.holds_src_dst|].
  destruct (add_submitted_before_remove _ Scenario.w0 _ _ _
              ScenarioRuns.holds_src_dst)
    as (a & r & before & Htasks & Ha & _ & Hr & _).
  exists a, r. repeat split; assumption.
Defined.

(** C3, as the specification words it, fails: in the scenario the unit is in
    both "src" and "both", and the exception raised for the move answers
    with status 500, which is no 4xx client error. *)
Lemma conflict_is_not_client_error :
  ¬ conflict_is_client_error (Scenario.req "1.0.0" "src" "both") Scenario.w0.
Proof.
  intros Hclaim.
  destruct (Hclaim Scenario.unit1 Scenario.repo_src Scenario.repo_both)
    as (e & He & H4xx & _); [reflexivity..|by_evaluation|by_evaluation|].
  rewrite ScenarioRuns.conflict in He. injection He as <-.
  discriminate H4xx.
Qed.

(** C3, amended.  When the unit exists, both paths resolve, and the unit is
    in the current version of the source and of the destination, the handler
    raises rest_framework's generic [APIException], which is not a
    [NotFound] and whose status code is the class default 500 rather than a
    4xx; the message contains "already found in destination repo"; the queue
    is left as it was and no submission is made. *)
Theorem conflict_raises_APIException (k : Kwargs) (w : World)
    (cv : CollectionVersion) (src dst : Repository) :
  find_unit (db w) k = Some cv →
  resolve (db w) (kw_source_path k) = Some src →
  resolve (db w) (kw_dest_path k) = Some dst →
  cv_pk cv ∈ current_content src →
  cv_pk cv ∈ current_content dst →
  ∃ e cs,
    (move_content k w).1 = Raise e ∧
    e = APIException ("Collection " +:+ version_str_of k +:+
                      " already found in destination repo") ∧
    is_NotFound e = false ∧
    status_code e = 500 ∧
    is_client_error (status_code e) = false ∧
    str_contains "already found in destination repo" (detail_of e) = true ∧
    tasks (move_content k w).2 = tasks w ∧
    trace (move_content k w).2 = trace w ++ cs ∧
    forallb (λ c, negb (is_Enqueue c)) cs = true.
Proof.
  intros Hcv Hsrc Hdst Hin Hin'.
  rewrite (already_in_dest_run k w cv src dst) by done.
  eexists _, _. unfold failed; simpl.
  split_and!; try done.
  by do 2 apply str_contains_app_r.
Qed.

Lemma conflict_raises_APIException_witness :
  (find_unit (db Scenario.w0) (Scenario.req "1.0.0" "src" "both")
   = Some Scenario.unit1 ∧
   resolve (db Scenario.w0) "src" = Some Scenario.repo_src ∧
   resolve (db Scenario.w0) "both" = Some Scenario.repo_both ∧
   7 ∈ current_content Scenario.repo_src ∧
   7 ∈ current_content Scenario.repo_both) ∧
  ∃ e, (move_content (Scenario.req "1.0.0" "src" "both") Scenario.w0).1
       = Raise e ∧ status_code e = 500.
Proof.
  assert (Hs : 7 ∈ current_content Scenario.repo_src) by by_evaluation.
  assert (Hb : 7 ∈ current_content Scenario.repo_both) by by_evaluation.
  split; [by repeat split|].
  destruct (conflict_raises_APIException
              (Scenario.req "1.0.0" "src" "both") Scenario.w0
              Scenario.unit1 Scenario.repo_src Scenario.repo_both
              eq_refl eq_refl eq_refl Hs Hb)
    as (e & cs & He & _ & _ & Hcode & _).
  exists e. by split.
Defined.

(** C4.  A successful move returns a response at once: its status is 202,
    its body has exactly the two fields [add_task_id] and [remove_task_id],
    holding the ids of the add task and of the remove task; when the handler
    returns both tasks are still waiting in the queue and the database is
    as it was, neither task having run. *)
Theorem accepted_response (k : Kwargs) (w : World)
    (cv : CollectionVersion) (src dst : Repository) :
  preconditions_hold (db w) k cv src dst →
  ∃ resp add_task remove_task,
    (move_content k w).1 = Return resp ∧
    tasks (move_content k w).2 = tasks w ++ [add_task; remove_task] ∧
    task_func add_task = add_content_to_repository ∧
    task_func remove_task = remove_content_from_repository ∧
    data resp = [("add_task_id", id add_task);
                 ("remove_task_id", id remove_task)] ∧
    status resp = "202" ∧
    response_status_code resp = Some 202 ∧
    state add_task = Waiting ∧
    state remove_task = Waiting ∧
    db (move_content k w).2 = db w.
Proof.
  intros Hpre. rewrite (accepted_run k w cv src dst Hpre); simpl.
  eexists _, (add_task_of w cv dst), (remove_task_of w cv src).
  by split_and!.
Qed.

Lemma accepted_response_witness :
  preconditions_hold (db Scenario.w0) (Scenario.req "1.0.0" "src" "dst")
    Scenario.unit1 Scenario.repo_src Scenario.repo_dst ∧
  ∃ resp,
    (move_content (Scenario.req "1.0.0" "src" "dst") Scenario.w0).1
    = Return resp ∧
    response_status_code resp = Some 202.
Proof.
  split; [exact ScenarioRuns.holds_src_dst|].
  destruct (accepted_response _ Scenario.w0 _ _ _ ScenarioRuns.holds_src_dst)
    as (resp & a & r & Hresp & _ & _ & _ & _ & _ & Hcode & _).
  exists resp. by split.
Defined.

(** C5.  On a successful move the add task reserves exactly the destination
    repository and carries the pair (unit, destination repository); the
    remove task reserves exactly the source repository and carries the pair
    (unit, source repository); no reservation key of one submission is a
    reservation key of the other. *)
Theorem reservations_and_payloads (k : Kwargs) (w : World)
    (cv : CollectionVersion) (src dst : Repository) :
  preconditions_hold (db w) k cv src dst →
  ∃ add_task remove_task,
    tasks (move_content k w).2 = tasks w ++ [add_task; remove_task] ∧
    task_func add_task = add_content_to_repository ∧
    reserved_resources add_task = [repo_pk dst] ∧
    task_args add_task = (cv_pk cv, repo_pk dst) ∧
    task_func remove_task = remove_content_from_repository ∧
    reserved_resources remove_task = [repo_pk src] ∧
    task_args remove_task = (cv_pk cv, repo_pk src) ∧
    (∀ key, key ∈ reserved_resources add_task →
            key ∉ reserved_resources remove_task).
Proof.
  intros Hpre. rewrite (accepted_run k w cv src dst Hpre); simpl.
  exists (add_task_of w cv dst), (remove_task_of w cv src).
  split_and!; try done.
  simpl. intros key Hadd Hrem.
  apply list_elem_of_singleton in Hadd, Hrem. subst key.
  destruct Hpre as [_ Hs Hd Hin Hout].
  apply Hout. by rewrite (resolve_pk_inj _ _ _ _ _ Hd Hs Hrem).
Qed.

Lemma reservations_and_payloads_witness :
  preconditions_hold (db Scenario.w0) (Scenario.req "1.0.0" "src" "dst")
    Scenario.unit1 Scenario.repo_src Scenario.repo_dst ∧
  ∃ add_task remove_task,
    tasks (move_content (Scenario.req "1.0.0" "src" "dst") Scenario.w0).2
    = [add_task; remove_task] ∧
    reserved_resources add_task = [2] ∧ task_args add_task = (7, 2) ∧
    reserved_resources remove_task = [1] ∧ task_args remove_task = (7, 1).
Proof.
  split; [exact ScenarioRuns.holds_src_dst|].
  destruct (reservations_and_payloads _ Scenario.w0 _ _ _
              ScenarioRuns.holds_src_dst)
    as (a & r & Htasks & _ & Hla & Haa & _ & Hlr & Har & _).
  exists a, r. by split_and!.
Defined.

(** C6, as the specification words it, fails: no unit has the key of the
    request whose namespace holds a NUL character, and the lookup of that
    key is refused with [ValueError], which the [except] clause of lines
    282-283 does not catch. *)
Lemma missing_unit_not_always_NotFound :
  ¬ missing_unit_is_NotFound Scenario.req_nul Scenario.w0.
Proof.
  intros Hclaim. destruct Hclaim as (e & He & Hnf); [reflexivity|].
  assert (Hrun : (move_content Scenario.req_nul Scenario.w0).1
                 = Raise NulValueError) by reflexivity.
  rewrite Hrun in He. injection He as <-. discriminate Hnf.
Qed.

(** C6, amended.  When no unit has the (namespace, name, version) of the
    request, and none of the three strings holds a NUL character, the
    handler raises [NotFound] with the message "Collection
    namespace-name-version not found"; the only call made is the unit
    lookup, so no repository is looked up and nothing is submitted. *)
Theorem missing_unit_raises_NotFound (k : Kwargs) (w : World) :
  key_has_nul k = false →
  collection_versions (db w) !! (kw_namespace k, kw_name k, kw_version k)
  = None →
  ∃ e cs,
    (move_content k w).1 = Raise e ∧
    e = NotFound ("Collection " +:+
                  (kw_namespace k +:+ "-" +:+ kw_name k +:+ "-" +:+
                   kw_version k) +:+
                  " not found") ∧
    str_contains
      (kw_namespace k +:+ "-" +:+ kw_name k +:+ "-" +:+ kw_version k)
      (detail_of e) = true ∧
    tasks (move_content k w).2 = tasks w ∧
    trace (move_content k w).2 = trace w ++ cs ∧
    cs = [CollectionVersion_get (kw_namespace k) (kw_name k) (kw_version k)] ∧
    forallb (λ c, negb (is_repository_lookup c || is_Enqueue c)) cs = true.
Proof.
  intros Hnul Hnone.
  rewrite unit_not_found_run
    by (done || (unfold find_unit; by rewrite Hnul, Hnone)).
  eexists _, _. unfold failed; simpl. split_and!; try done.
  apply str_contains_app.
Qed.

Lemma missing_unit_raises_NotFound_witness :
  (key_has_nul (Scenario.req "3.0.0" "src" "dst") = false ∧
   collection_versions (db Scenario.w0) !! ("acme", "tool", "3.0.0")
   = None) ∧
  (move_content (Scenario.req "3.0.0" "src" "dst") Scenario.w0).1
  = Raise (NotFound "Collection acme-tool-3.0.0 not found").
Proof.
  split; [by split|].
  destruct (missing_unit_raises_NotFound
              (Scenario.req "3.0.0" "src" "dst") Scenario.w0
              eq_refl eq_refl)
    as (e & cs & -> & -> & _).
  reflexivity.
Defined.




(** C8.  When the unit exists and both paths resolve but the unit is not in
    the source's current version, the handler raises [NotFound] with a
    message that contains "not found in source repo"; that message differs
    from the message of the destination conflict of any request, and
    [endswith("source repo")] tells the two apart. *)
Theorem absent_from_source_raises_NotFound (k : Kwargs) (w : World)
    (cv : CollectionVersion) (src dst : Repository) :
  find_unit (db w) k = Some cv →
  resolve (db w) (kw_source_path k) = Some src →
  resolve (db w) (kw_dest_path k) = Some dst →
  cv_pk cv ∉ current_content src →
  ∃ e,
    (move_content k w).1 = Raise e ∧
    e = NotFound ("Collection " +:+ version_str_of k +:+
                  " not found in source repo") ∧
    str_contains "not found in source repo" (detail_of e) = true ∧
    (∀ k', detail_of e ≠ msg_already_in_dest k' ∧
           str_endswith "source repo" (detail_of e) = true ∧
           str_endswith "source repo" (msg_already_in_dest k') = false).
Proof.
  intros Hcv Hsrc Hdst Hout.
  rewrite (not_in_source_run k w cv src dst) by done.
  eexists. unfold failed; simpl. split_and!; try done.
  - by do 2 apply str_contains_app_r.
  - intros k'.
    pose proof (not_in_source_endswith_source k) as Hs.
    pose proof (already_in_dest_not_endswith_source k') as Hd.
    split_and!; try done.
    intros Heq. simpl in Heq. fold (msg_not_in_source k) in Heq.
    rewrite Heq, Hd in Hs. discriminate.
Qed.

Lemma absent_from_source_raises_NotFound_witness :
  (find_unit (db Scenario.w0) (Scenario.req "1.0.0" "dst" "src")
   = Some Scenario.unit1 ∧
   resolve (db Scenario.w0) "dst" = Some Scenario.repo_dst ∧
   resolve (db Scenario.w0) "src" = Some Scenario.repo_src ∧
   7 ∉ current_content Scenario.repo_dst) ∧
  (move_content (Scenario.req "1.0.0" "dst" "src") Scenario.w0).1
  = Raise (NotFound "Collection acme-tool-1.0.0 not found in source repo").
Proof.
  assert (Hout : 7 ∉ current_content Scenario.repo_dst) by by_evaluation.
  split; [by split_and!|].
  destruct (absent_from_source_raises_NotFound
              (Scenario.req "1.0.0" "dst" "src")
              Scenario.w0 Scenario.unit1 Scenario.repo_dst
              Scenario.repo_src eq_refl eq_refl eq_refl Hout)
    as (e & -> & -> & _).
  reflexivity.
Defined.

(** C9.  Whatever the request and however it ends, the handler leaves the
    database as it found it: the tables of units and of distributions and
    every repository's version history are the same after the run. *)
Theorem database_unchanged (k : Kwargs) (w : World) :
  db (move_content k w).2 = db w.
Proof. by destruct (move_content_run k w). Qed.

(** C10.  When both paths resolve to one and the same repository and the
    unit is in that repository's current version, the handler raises the
    "already found in destination repo" exception and submits nothing. *)
Theorem self_move_rejected (k : Kwargs) (w : World)
    (cv : CollectionVersion) (repo : Repository) :
  find_unit (db w) k = Some cv →
  resolve (db w) (kw_source_path k) = Some repo →
  resolve (db w) (kw_dest_path k) = Some repo →
  cv_pk cv ∈ current_content repo →
  ∃ cs,
    (move_content k w).1
    = Raise (APIException ("Collection " +:+ version_str_of k +:+
                           " already found in destination repo")) ∧
    tasks (move_content k w).2 = tasks w ∧
    trace (move_content k w).2 = trace w ++ cs ∧
    forallb (λ c, negb (is_Enqueue c)) cs = true.
Proof.
  intros Hcv Hsrc Hdst Hin.
  rewrite (already_in_dest_run k w cv repo repo) by done.
  by eexists.
Qed.

Lemma self_move_rejected_witness :
  (find_unit (db Scenario.w0) (Scenario.req "1.0.0" "src" "src")
   = Some Scenario.unit1 ∧
   resolve (db Scenario.w0) "src" = Some Scenario.repo_src ∧
   7 ∈ current_content Scenario.repo_src) ∧
  (move_content (Scenario.req "1.0.0" "src" "src") Scenario.w0).1
  = Raise (APIException
             "Collection acme-tool-1.0.0 already found in destination repo") ∧
  tasks (move_content (Scenario.req "1.0.0" "src" "src") Scenario.w0).2 = [].
Proof.
  assert (Hin : 7 ∈ current_content Scenario.repo_src) by by_evaluation.
  split; [by split_and!|].
  destruct (self_move_rejected (Scenario.req "1.0.0" "src" "src") Scenario.w0
              Scenario.unit1 Scenario.repo_src eq_refl eq_refl eq_refl Hin)
    as (cs & Hraise & Htasks & _).
  by split.
Defined.

(** * The rest of [collection.py] *)

(** ** Splitting and stripping *)

Lemma str_split_nonempty (sep : Ascii.ascii) (s : string) :
  str_split sep s ≠ [].
Proof.
  induction s as [|a s IH]; [done|]. simpl.
  destruct (Ascii.eqb a sep); [done|]. by destruct (str_split sep s).
Qed.

(** Splitting at a separator splits the two sides on their own. *)
Lemma str_split_app_sep (sep : Ascii.ascii) (s t : string) :
  str_split sep (s +:+ String sep t) = str_split sep s ++ str_split sep t.
Proof.
  induction s as [|a s IH].
  - change ("" +:+ String sep t) with (String sep t). simpl.
    by rewrite Ascii.eqb_refl.
  - rewrite string_app_cons. simpl. rewrite IH.
    destruct (Ascii.eqb a sep); [done|].
    pose proof (str_split_nonempty sep s). by destruct (str_split sep s).
Qed.

Lemma str_split_no_sep (sep : Ascii.ascii) (s : string) :
  str_has_char sep s = false → str_split sep s = [s].
Proof.
  induction s as [|a s IH]; [done|]. simpl.
  intros [Ha Hs]%orb_false_elim. by rewrite Ha, (IH Hs).
Qed.

(** No piece of a split holds the separator. *)
Lemma str_split_pieces (sep : Ascii.ascii) (s : string) :
  Forall (λ piece, str_has_char sep piece = false) (str_split sep s).
Proof.
  induction s as [|a s IH]; simpl; [by repeat constructor|].
  destruct (Ascii.eqb a sep) eqn:Ha; [by constructor|].
  destruct (str_split sep s) as [|piece pieces];
    [by repeat constructor; simpl; rewrite Ha|].
  inversion_clear IH as [|? ? Hpiece Hpieces].
  constructor; [|done]. simpl. by rewrite Ha.
Qed.

Lemma last_str_split_lstrip (sep : Ascii.ascii) (s : string) :
  last (str_split sep (str_lstrip sep s)) = last (str_split sep s).
Proof.
  induction s as [|a s IH]; [done|]. simpl.
  destruct (Ascii.eqb a sep) eqn:Ha; [|by simpl; rewrite Ha].
  rewrite IH. pose proof (str_split_nonempty sep s).
  by destruct (str_split sep s).
Qed.

Lemma str_rstrip_no_char (c : Ascii.ascii) (s : string) :
  str_has_char c s = false → str_rstrip c s = s.
Proof.
  induction s as [|a s IH]; [done|]. simpl.
  intros [Ha Hs]%orb_false_elim. rewrite (IH Hs), Ha. by destruct s.
Qed.

Lemma str_rstrip_app_char (c : Ascii.ascii) (s : string) :
  str_rstrip c (s +:+ String c "") = str_rstrip c s.
Proof.
  induction s as [|a s IH].
  - change ("" +:+ String c "") with (String c ""). simpl.
    by rewrite Ascii.eqb_refl.
  - rewrite string_app_cons. simpl. by rewrite IH.
Qed.

Lemma str_rstrip_app (c : Ascii.ascii) (s t : string) :
  str_rstrip c t ≠ "" → str_rstrip c (s +:+ t) = s +:+ str_rstrip c t.
Proof.
  intros Ht. induction s as [|a s IH]; [done|].
  rewrite !string_app_cons. simpl. rewrite IH.
  destruct (s +:+ str_rstrip c t) eqn:E; [|done].
  destruct s; [|by rewrite string_app_cons in E]. done.
Qed.

Lemma str_strip_cons_char (c : Ascii.ascii) (s : string) :
  str_strip c (String c s) = str_strip c s.
Proof.
  unfold str_strip. simpl. rewrite Ascii.eqb_refl.
  destruct (str_rstrip c s); simpl; by rewrite ?Ascii.eqb_refl.
Qed.

Lemma str_strip_app_char (c : Ascii.ascii) (s : string) :
  str_strip c (s +:+ String c "") = str_strip c s.
Proof. unfold str_strip. by rewrite str_rstrip_app_char. Qed.

(** ** The task id of [create] *)

(** X10.  The expression always yields an id (the [[-1]] never raises
    [IndexError]), and the id holds no slash. *)
Theorem task_id_of_href_no_slash (task_href : string) :
  ∃ task_id,
    task_id_of_href task_href = Some task_id ∧
    str_has_char slash task_id = false.
Proof.
  unfold task_id_of_href.
  pose proof (str_split_pieces slash (str_strip slash task_href)) as Hall.
  pose proof (str_split_nonempty slash (str_strip slash task_href)) as Hne.
  destruct (last (str_split slash (str_strip slash task_href)))
    as [task_id|] eqn:Hlast.
  - exists task_id. split; [done|].
    apply last_Some in Hlast as [l Hl]. rewrite Hl in Hall.
    by apply Forall_app in Hall as [_ [? _]%Forall_cons].
  - by apply last_None in Hlast.
Qed.

(** X11.  A task href that ends in [/id] or [/id/], with [id] not empty and
    free of slashes, gives back [id], whatever comes before. *)
Theorem task_id_of_href_round_trip (base task_id : string) :
  task_id ≠ "" →
  str_has_char slash task_id = false →
  task_id_of_href (base +:+ "/" +:+ task_id +:+ "/") = Some task_id ∧
  task_id_of_href (base +:+ "/" +:+ task_id) = Some task_id.
Proof.
  intros Hne Hfree.
  assert (Hstrip : str_rstrip slash (base +:+ "/" +:+ task_id)
                   = base +:+ "/" +:+ task_id).
  { assert (Htail : str_rstrip slash ("/" +:+ task_id) = "/" +:+ task_id).
    { rewrite str_rstrip_app; by rewrite str_rstrip_no_char. }
    rewrite str_rstrip_app; by rewrite Htail. }
  assert (Hlast : last (str_split slash (base +:+ "/" +:+ task_id))
                  = Some task_id).
  { change ("/" +:+ task_id) with (String slash task_id).
    rewrite str_split_app_sep, (str_split_no_sep slash task_id) by done.
    by rewrite last_snoc. }
  unfold task_id_of_href, str_strip. split.
  - replace (base +:+ "/" +:+ task_id +:+ "/")
      with ((base +:+ "/" +:+ task_id) +:+ String slash "")
      by (by rewrite !string_app_assoc).
    by rewrite str_rstrip_app_char, Hstrip, last_str_split_lstrip.
  - by rewrite Hstrip, last_str_split_lstrip.
Qed.

Lemma task_id_of_href_round_trip_witness :
  ("8f2c" ≠ "" ∧ str_has_char slash "8f2c" = false) ∧
  task_id_of_href "/pulp/api/v3/tasks/8f2c/" = Some "8f2c".
Proof.
  split; [by split|].
  exact (proj1 (task_id_of_href_round_trip "/pulp/api/v3/tasks" "8f2c"
                  ltac:(done) eq_refl)).
Defined.

(** ** The download view *)

(** X12.  Leading and trailing slashes of [CONTENT_PATH_PREFIX] do not
    change the URL asked for. *)
Theorem download_url_prefix_slashes (host port prefix path filename : string) :
  let url p :=
    download_url {| X_PULP_CONTENT_HOST := host; X_PULP_CONTENT_PORT := port;
                    CONTENT_PATH_PREFIX := p |} path filename in
  url ("/" +:+ prefix) = url prefix ∧
  url (prefix +:+ "/") = url prefix ∧
  url ("/" +:+ prefix +:+ "/") = url prefix.
Proof.
  unfold download_url; simpl.
  change ("/" +:+ prefix +:+ "/") with (String slash (prefix +:+ "/")).
  change ("/" +:+ prefix) with (String slash prefix).
  change (prefix +:+ "/") with (prefix +:+ String slash "").
  by rewrite !str_strip_cons_char, !str_strip_app_char.
Qed.

(** Counting one more failure under a label adds one to the total. *)
Lemma total_failures_inc (label : nat) (m : Metrics) :
  total_failures (inc_failures label m) = S (total_failures m).
Proof.
  unfold total_failures, inc_failures; simpl.
  set (fs := collection_artifact_download_failures m).
  set (f := λ (_ : nat) (n acc : nat), n + acc).
  assert (Hcomm : ∀ j1 j2 z1 z2 y, f j1 z1 (f j2 z2 y) = f j2 z2 (f j1 z1 y))
    by (intros; unfold f; lia).
  destruct (fs !! label) as [n|] eqn:Hn; simpl.
  - rewrite <- (insert_delete_eq fs).
    rewrite (map_fold_insert_L f 0 label (S n) (delete label fs));
      [|intros; apply Hcomm|apply lookup_delete_eq].
    rewrite (map_fold_delete_L f 0 label n fs); [done|intros; apply Hcomm|done].
  - rewrite (map_fold_insert_L f 0 label 1 fs); [done|intros; apply Hcomm|done].
Qed.

(** X13.  Every call counts one attempt, and counts the call once more as a
    success (upstream 200), as a failure (any status but 200 and 302), or
    not at all (upstream 302). *)
Theorem download_counts_once (settings : Settings)
    (requests_get : string → UpstreamResponse) (path filename : string)
    (metrics : Metrics) :
  let response := requests_get (download_url settings path filename) in
  let after :=
    (CollectionArtifactDownloadView_get settings requests_get path filename
       metrics).2 in
  collection_artifact_download_attempts after
  = S (collection_artifact_download_attempts metrics) ∧
  collection_artifact_download_successes after
  = (if upstream_status response =? 200 then 1 else 0)
    + collection_artifact_download_successes metrics ∧
  total_failures after
  = (if (upstream_status response =? 200) || (upstream_status response =? 302)
     then 0 else 1)
    + total_failures metrics.
Proof.
  unfold CollectionArtifactDownloadView_get; simpl.
  set (response := requests_get _).
  destruct (upstream_status response =? 404) eqn:E404; simpl.
  { apply Nat.eqb_eq in E404. rewrite E404; simpl.
    by rewrite total_failures_inc. }
  destruct (upstream_status response =? 302) eqn:E302; simpl.
  { apply Nat.eqb_eq in E302. rewrite E302; simpl.
    by destruct (upstream_header response "Location"). }
  destruct (upstream_status response =? 200) eqn:E200; simpl.
  { by destruct (upstream_header response "Content-Type"). }
  by rewrite total_failures_inc.
Qed.

(** X14.  How a call ends tells what the content app answered: a redirect for a
    302 with a Location header, a stream for a 200 with a Content-Type
    header, [NotFound] for a 404, the generic [APIException] naming the code
    for every other status, and [KeyError] for a 302 or a 200 that lacks
    its header. *)
Theorem download_outcome_by_status (settings : Settings)
    (requests_get : string → UpstreamResponse) (path filename : string)
    (metrics : Metrics) :
  let response := requests_get (download_url settings path filename) in
  match (CollectionArtifactDownloadView_get settings requests_get path
           filename metrics).1 with
  | Responded (HttpResponseRedirect location) =>
      upstream_status response = 302 ∧
      upstream_header response "Location" = Some location
  | Responded (StreamingHttpResponse body content_type) =>
      upstream_status response = 200 ∧
      body = upstream_raw response ∧
      upstream_header response "Content-Type" = Some content_type
  | Raised e =>
      (upstream_status response = 404 ∧ e = NotFound "Not found." ∧
       status_code e = 404) ∨
      (upstream_status response ≠ 404 ∧
       upstream_status response ≠ 302 ∧
       upstream_status response ≠ 200 ∧
       e = APIException ("Unexpected response from content app. Code: " +:+
                         str_of_nat (upstream_status response) +:+ ".") ∧
       status_code e = 500)
  | RaisedKeyError =>
      (upstream_status response = 302 ∧
       upstream_header response "Location" = None) ∨
      (upstream_status response = 200 ∧
       upstream_header response "Content-Type" = None)
  end.
Proof.
  unfold CollectionArtifactDownloadView_get; simpl.
  set (response := requests_get _).
  destruct (upstream_status response =? 404) eqn:E404; simpl.
  { apply Nat.eqb_eq in E404. by left. }
  destruct (upstream_status response =? 302) eqn:E302; simpl.
  { apply Nat.eqb_eq in E302.
    destruct (upstream_header response "Location") eqn:H; simpl; auto. }
  destruct (upstream_status response =? 200) eqn:E200; simpl.
  { apply Nat.eqb_eq in E200.
    destruct (upstream_header response "Content-Type") eqn:H; simpl; auto. }
  apply Nat.eqb_neq in E404, E302, E200. by right.
Qed.

(** ** More on [move_content] *)

(** X1.  The handler answers with a response exactly when all the checks
    pass. *)
Theorem accepted_iff_preconditions (k : Kwargs) (w : World) :
  (∃ resp, (move_content k w).1 = Return resp) ↔
  (∃ cv src dst, preconditions_hold (db w) k cv src dst).
Proof.
  split.
  - intros [resp Hresp].
    destruct (move_content_run k w) as [| | | | | | | | | |cv src dst Hpre];
      try discriminate Hresp.
    by exists cv, src, dst.
  - intros (cv & src & dst & Hpre).
    rewrite (accepted_run k w cv src dst Hpre). by eexists.
Qed.

(** X2.  The queue is either left as it was, when the handler raises, or grows
    by the add task followed by the remove task, when it returns: never by
    one task alone, and no queued task is dropped or reordered. *)
Theorem no_partial_submission (k : Kwargs) (w : World) :
  match (move_content k w).1 with
  | Raise _ => tasks (move_content k w).2 = tasks w
  | Return _ =>
      ∃ add_task remove_task,
        tasks (move_content k w).2 = tasks w ++ [add_task; remove_task] ∧
        task_func add_task = add_content_to_repository ∧
        task_func remove_task = remove_content_from_repository
  end.
Proof.
  destruct (move_content_run k w) as [| | | | | | | | | |cv src dst Hpre];
    simpl; try done.
  by exists (add_task_of w cv dst), (remove_task_of w cv src).
Qed.




(** X4.  A request repeated before any worker has run is accepted again: the
    checks read the database, not the queue, so a second add task and a
    second remove task for the same unit and repositories are queued behind
    the first pair. *)
Theorem repeated_move_queues_again (k : Kwargs) (w : World)
    (cv : CollectionVersion) (src dst : Repository) :
  preconditions_hold (db w) k cv src dst →
  let w1 := (move_content k w).2 in
  let w2 := (move_content k w1).2 in
  (∃ resp, (move_content k w1).1 = Return resp) ∧
  tasks w2
  = tasks w ++ [add_task_of w cv dst; remove_task_of w cv src;
                add_task_of w1 cv dst; remove_task_of w1 cv src].
Proof.
  intros Hpre. simpl.
  assert (Hpre1 : preconditions_hold (db (move_content k w).2) k cv src dst)
    by (by rewrite (accepted_run k w cv src dst Hpre)).
  rewrite (accepted_run k _ cv src dst Hpre1). simpl. split; [by eexists|].
  rewrite (accepted_run k w cv src dst Hpre). simpl.
  by rewrite <- (assoc_L (++)).
Qed.

Lemma repeated_move_queues_again_witness :
  preconditions_hold (db Scenario.w0) (Scenario.req "1.0.0" "src" "dst")
    Scenario.unit1 Scenario.repo_src Scenario.repo_dst ∧
  task_func
    <$> tasks (move_content (Scenario.req "1.0.0" "src" "dst")
                 (move_content (Scenario.req "1.0.0" "src" "dst")
                    Scenario.w0).2).2
  = [add_content_to_repository; remove_content_from_repository;
     add_content_to_repository; remove_content_from_repository].
Proof.
  split; [exact ScenarioRuns.holds_src_dst|].
  destruct (repeated_move_queues_again _ Scenario.w0 _ _ _
              ScenarioRuns.holds_src_dst) as [_ Htasks].
  rewrite Htasks. reflexivity.
Defined.

(** X5.  Two worlds with one database get the same verdict: the exception
    raised, if any, does not depend on the queue or on earlier calls. *)
Theorem verdict_reads_database_only (k : Kwargs) (w w' : World) (e : exn) :
  db w = db w' →
  (move_content k w).1 = Raise e →
  (move_content k w').1 = Raise e.
Proof.
  intros Hdb He.
  destruct (move_content_run k w) as [H1|H1 H2|cv H1 H2|cv H1 H2
    |cv src H1 H2 H3|cv src H1 H2 H3|cv dst H1 H2 H3|cv src dst H1 H2 H3 H4
    |cv src H1 H2 H3 H4|cv src dst H1 H2 H3 H4 H5|cv src dst Hpre];
    simpl in He; simplify_eq; try rewrite Hdb in *.
  - by rewrite (move_content_eq k w' _ (run_unit_refused k w' H1)).
  - by rewrite (move_content_eq k w' _ (run_unit_not_found k w' H1 H2)).
  - by rewrite (move_content_eq k w' _ (run_source_refused k w' cv H1 H2)).
  - by rewrite (move_content_eq k w' _
                  (run_source_unresolved k w' cv H1 H2)).
  - by rewrite (move_content_eq k w' _
                  (run_dest_refused k w' cv src H1 H2 H3)).
  - by rewrite (move_content_eq k w' _
                  (run_dest_unresolved k w' cv src H1 H2 H3)).
  - by rewrite (move_content_eq k w' _
                  (run_source_None k w' cv dst H1 H2 H3)).
  - by rewrite (move_content_eq k w' _
                  (run_not_in_source k w' cv src dst H1 H2 H3 H4)).
  - by rewrite (move_content_eq k w' _
                  (run_dest_None k w' cv src H1 H2 H3 H4)).
  - by rewrite (move_content_eq k w' _
                  (run_already_in_dest k w' cv src dst H1 H2 H3 H4 H5)).
Qed.

Lemma verdict_reads_database_only_witness :
  db Scenario.w0
  = db (move_content (Scenario.req "1.0.0" "src" "dst") Scenario.w0).2 ∧
  (move_content (Scenario.req "1.0.0" "dst" "src")
     (move_content (Scenario.req "1.0.0" "src" "dst") Scenario.w0).2).1
  = Raise (NotFound "Collection acme-tool-1.0.0 not found in source repo").
Proof.
  split; [reflexivity|].
  exact (verdict_reads_database_only (Scenario.req "1.0.0" "dst" "src")
           Scenario.w0 _ _ eq_refl eq_refl).
Defined.

(** The messages of the two checks that end in "... not found" do not end
    in "repo", and begin differently. *)
Lemma unit_not_found_endswith_found (k : Kwargs) :
  str_endswith "found" (msg_unit_not_found k) = true.
Proof.
  unfold msg_unit_not_found.
  change " not found" with (" not " +:+ "found").
  rewrite <- !string_app_assoc. apply str_endswith_app.
Qed.

Lemma not_in_source_not_endswith_found (k : Kwargs) :
  str_endswith "found" (msg_not_in_source k) = false.
Proof.
  unfold msg_not_in_source, str_endswith.
  rewrite <- string_app_assoc, rev_app_distr. reflexivity.
Qed.

Lemma already_in_dest_not_endswith_found (k : Kwargs) :
  str_endswith "found" (msg_already_in_dest k) = false.
Proof.
  unfold msg_already_in_dest, str_endswith.
  rewrite <- string_app_assoc, rev_app_distr. reflexivity.
Qed.

(** X6.  The four error messages tell the four failures apart, whatever the
    namespaces, names and versions of the requests compared. *)
Theorem error_messages_distinct (k1 k2 : Kwargs) :
  msg_unit_not_found k1 ≠ msg_repos_not_found k2 ∧
  msg_unit_not_found k1 ≠ msg_not_in_source k2 ∧
  msg_unit_not_found k1 ≠ msg_already_in_dest k2 ∧
  msg_repos_not_found k1 ≠ msg_not_in_source k2 ∧
  msg_repos_not_found k1 ≠ msg_already_in_dest k2 ∧
  msg_not_in_source k1 ≠ msg_already_in_dest k2.
Proof.
  assert (Hfirst : ∀ s t, "Collection " +:+ s
                          ≠ "Repo(s) for moving collection " +:+ t).
  { intros s t H. apply (f_equal (String.get 0)) in H. discriminate H. }
  split_and!.
  - apply Hfirst.
  - intros H. pose proof (unit_not_found_endswith_found k1) as Ht.
    rewrite H, not_in_source_not_endswith_found in Ht. discriminate.
  - intros H. pose proof (unit_not_found_endswith_found k1) as Ht.
    rewrite H, already_in_dest_not_endswith_found in Ht. discriminate.
  - intros H. symmetry in H. by apply Hfirst in H.
  - intros H. symmetry in H. by apply Hfirst in H.
  - intros H. pose proof (not_in_source_endswith_source k1) as Ht.
    rewrite H, already_in_dest_not_endswith_source in Ht. discriminate.
Qed.

(** ** The serializer context *)

(** X7.  The context returned always has a [view_namespace] entry; it is [None]
    when the context holds no request and the namespace of the resolved URL
    when it holds one, in which case [view_route] is set as well.  Every
    other entry is the one of the parent's context, and without a request
    [view_route] is left as the parent had it. *)
Theorem serializer_context_entries
    (super_context context : gmap string ctx_value) :
  get_serializer_context super_context = Context context →
  (∀ key, key ≠ "view_namespace" → key ≠ "view_route" →
          context !! key = super_context !! key) ∧
  match super_context !! "request" with
  | Some (CtxRequest {| resolver_match := Some rm |}) =>
      context !! "view_namespace" = Some (CtxStr (rm_namespace rm)) ∧
      context !! "view_route" = Some (CtxStr (rm_route rm))
  | _ =>
      context !! "view_namespace" = Some CtxNone ∧
      context !! "view_route" = super_context !! "view_route"
  end.
Proof.
  unfold get_serializer_context. intros H.
  destruct (super_context !! "request") as [[|s|[[rm|]]|n]|] eqn:Hreq;
    simpl in H; try destruct (negb _); simplify_eq;
    (split; [intros key ? ?; by rewrite ?lookup_insert_ne by done|]);
    by rewrite ?lookup_insert_eq, ?lookup_insert_ne, ?lookup_insert_eq by done.
Qed.

Lemma serializer_context_entries_witness :
  get_serializer_context {[ "format" := CtxStr "json" ]}
  = Context {[ "format" := CtxStr "json"; "view_namespace" := CtxNone ]} ∧
  ({[ "format" := CtxStr "json"; "view_namespace" := CtxNone ]}
     : gmap string ctx_value) !! "view_route" = None.
Proof.
  assert (H : get_serializer_context {[ "format" := CtxStr "json" ]}
              = Context {[ "format" := CtxStr "json";
                           "view_namespace" := CtxNone ]}).
  { vm_compute. reflexivity. }
  split; [exact H|].
  destruct (serializer_context_entries _ _ H) as [_ Hreq].
  simpl in Hreq. destruct Hreq as [_ ->]. reflexivity.
Defined.

(** ** The upload view's helpers *)

(** X8.  Every dispatch enqueues exactly one import task, the staging import
    when content approval is required and the auto-approving one otherwise.
    The task reserves the repository given, if any, and nothing else; a
    repository it reserves is the one its [repository_pk] names;
    [temp_file_pk] is the one given, and all other keyword arguments are
    handed on as they came. *)
Theorem dispatch_enqueues_one_import (approval : bool) (temp_file_pk : Pk)
    (repo : option Repository) (kwargs : gmap string kwarg)
    (queue : list ImportTask) :
  let t := (_dispatch_import_collection_task approval temp_file_pk repo
              kwargs queue).1 in
  (_dispatch_import_collection_task approval temp_file_pk repo kwargs
     queue).2 = queue ++ [t] ∧
  import_func t
  = (if approval then import_and_move_to_staging
     else import_and_auto_approve) ∧
  import_locks t = option_list (repo_pk <$> repo) ∧
  (∀ pk, pk ∈ import_locks t →
         import_kwargs t !! "repository_pk" = Some (KwPk pk)) ∧
  import_kwargs t !! "temp_file_pk" = Some (KwPk temp_file_pk) ∧
  (∀ key, key ≠ "temp_file_pk" → key ≠ "repository_pk" →
          import_kwargs t !! key = kwargs !! key).
Proof.
  unfold _dispatch_import_collection_task.
  destruct approval, repo as [r|]; simpl; split_and!; try done;
    try (intros pk Hpk; apply list_elem_of_singleton in Hpk as ->;
         by rewrite lookup_insert_eq);
    try (intros pk Hpk; by apply not_elem_of_nil in Hpk);
    try (intros key ? ?; by rewrite !lookup_insert_ne by done);
    by rewrite ?lookup_insert_ne, lookup_insert_eq by done.
Qed.

(** X9.  A path is accepted exactly when it holds no NUL character and
    has a distribution whose repository is named as the inbound repository
    of the namespace: the name of the repository decides, not the path
    itself.  A path free of NUL without a distribution ends in [Http404], a
    path holding NUL in [ValueError], a distribution without repository in
    [AttributeError], and a repository under another name in the
    [APIException] that quotes the expected name. *)
Theorem path_check_by_repository_name (fmt : string → string)
    (tables : InboundTables) (path filename_ns : string) :
  (_check_path_matches_expected_repo fmt tables path filename_ns
   = PathAccepted ↔
   has_nul path = false ∧
   ∃ rid, inbound_distributions tables !! path = Some (Some rid) ∧
          repository_names tables !! rid = Some (fmt filename_ns)) ∧
  (_check_path_matches_expected_repo fmt tables path filename_ns
   = PathHttp404 ↔
   has_nul path = false ∧ inbound_distributions tables !! path = None) ∧
  (_check_path_matches_expected_repo fmt tables path filename_ns
   = PathRaised NulValueError ↔
   has_nul path = true) ∧
  (_check_path_matches_expected_repo fmt tables path filename_ns
   = PathRaised NoneTypeAttributeError ↔
   has_nul path = false ∧
   inbound_distributions tables !! path = Some None) ∧
  (∀ rid repo_name,
     has_nul path = false →
     inbound_distributions tables !! path = Some (Some rid) →
     repository_names tables !! rid = Some repo_name →
     repo_name ≠ fmt filename_ns →
     _check_path_matches_expected_repo fmt tables path filename_ns
     = PathRaised (APIException ("Path does not match: " +:+ double_quote +:+
                                 fmt filename_ns +:+ double_quote))).
Proof.
  unfold _check_path_matches_expected_repo.
  destruct (has_nul path).
  { repeat split; try done; try (by intros [? _]); by intros. }
  destruct (inbound_distributions tables !! path) as [[rid|]|] eqn:Hd.
  2, 3: repeat split; try done; try (by intros [_ ?]);
    try (by intros (_ & ? & ? & _)); by intros.
  destruct (repository_names tables !! rid) as [repo_name|] eqn:Hn;
    [destruct (String.eqb_spec (fmt filename_ns) repo_name) as [->|Hne]|];
    repeat split; try done;
    try (intros (_ & ? & ? & ?)); try (intros [_ ?]); intros;
    try congruence; by exists rid.
Qed.
